(** * News-agent: a shallow embedding of the hybrid fetch/process pipeline

    The development follows the Python sources file by file:
    - [src/config/models.py]        the pydantic value objects,
    - [src/tools/mock_news_api.py]  the mock fetch and the mock analysis,
    - [src/utils/executor_manager.py] the pool life cycle,
    - [src/agent/strategies.py]     the processing strategy,
    - [src/agent/news_agent.py]     [NewsArticleAgent.research].

    Conventions.
    - Durations and [time.perf_counter] readings are integers of a virtual
      clock (type [seconds]) that ticks in milliseconds, so that the
      default delay of 0.5 s reads 500; floating point rounding is not
      modelled.
    - A call that may raise returns an [outcome]; an exception is a value
      carrying its Python class name, its message and its [__cause__].
    - [print] calls write to stdout only and are left out.
    - Mutable objects ([ExecutorManager], [ProcessPoolExecutor]) live in a
      store ([World]) and are named by their index, so that two holders of
      one object see each other's updates. *)

From Stdlib Require Import ZArith String Ascii List Lia Bool.
From stdpp Require Import base option list strings.

Local Open Scope Z_scope.

(* ===================================================================== *)
(** ** Python runtime: exceptions, outcomes, strings *)
(* ===================================================================== *)

Definition seconds := Z.

#[local] Set Warnings "-register-all".
Inductive PyExc : Type :=
  Exc (exc_type : string) (exc_msg : string) (exc_cause : option PyExc).

Definition exc_type (e : PyExc) : string := let 'Exc t _ _ := e in t.
Definition exc_msg (e : PyExc) : string := let 'Exc _ m _ := e in m.
Definition exc_cause (e : PyExc) : option PyExc := let 'Exc _ _ c := e in c.

(** [wraps name inner e]: [e] is an exception of class [name] raised
    [from inner]. *)
Definition wraps (name : string) (inner e : PyExc) : Prop :=
  exc_type e = name /\ exc_cause e = Some inner.

Definition ValueError (msg : string) : PyExc := Exc "ValueError" msg None.
Definition RuntimeError (msg : string) : PyExc := Exc "RuntimeError" msg None.
Definition ValidationError (msg : string) : PyExc :=
  Exc "ValidationError" msg None.
Definition OverflowError (msg : string) : PyExc :=
  Exc "OverflowError" msg None.

Inductive outcome (A : Type) : Type :=
| Return (a : A)
| Raise (e : PyExc).
Arguments Return {A} a.
Arguments Raise {A} e.

Definition bind {A B} (m : outcome A) (k : A -> outcome B) : outcome B :=
  match m with
  | Return a => k a
  | Raise e => Raise e
  end.

Notation "'let!' x ':=' m 'in' k" := (bind m (fun x => k))
  (at level 10, x name, m at level 100, k at level 200).

Definition is_return {A} (m : outcome A) : bool :=
  match m with Return _ => true | Raise _ => false end.

(** Python's [needle in hay] on [str]. *)
Fixpoint contains (needle hay : string) : bool :=
  if String.prefix needle hay then true
  else match hay with
       | EmptyString => false
       | String _ rest => contains needle rest
       end.

(* ===================================================================== *)
(** ** src/config/models.py *)
(* ===================================================================== *)

Module AgentConfig.
Record t := mk {
  max_cpu_workers : Z;
  mock_fetch_delay : seconds;
  mock_analysis_time : seconds;
  api_timeout : seconds
}.
(** The field defaults of the settings class. *)
Definition defaults : t := mk 2 500 1000 30000.
End AgentConfig.

Module RawArticleData.
Record t := mk {
  url : string;
  content : string;
  fetch_time : seconds
}.
End RawArticleData.

Module ArticleAnalysisResult.
Record t := mk {
  url : string;
  summary : string;
  category : string;
  entities : list string;
  analysis_time : seconds
}.
End ArticleAnalysisResult.

(** Values that reach a model constructor as keyword arguments; a float
    is given in ticks of the clock, so that [PyFloat 1500] is [1.5]. *)
Inductive PyValue : Type :=
| PyInt (z : Z)
| PyFloat (x : seconds)
| PyResults (l : list ArticleAnalysisResult.t).

Definition kwargs := list (string * PyValue).

(** [dict.get]: the value bound to the key, if any. *)
Fixpoint kw_get (k : string) (kw : kwargs) : option PyValue :=
  match kw with
  | [] => None
  | (k', v) :: rest => if String.eqb k k' then Some v else kw_get k rest
  end.

Module NewsAgentReport.
Record t := mk {
  results : list ArticleAnalysisResult.t;
  total_articles_processed : Z;
  total_time_taken : seconds
}.

(** The declared fields, in declaration order. *)
Definition model_fields : list string :=
  ["results"; "total_articles_processed"; "total_time_taken"]%string.

Definition validate_results (v : option PyValue)
  : outcome (list ArticleAnalysisResult.t) :=
  match v with
  | None => Return []
  | Some (PyResults l) => Return l
  | Some _ => Raise (ValidationError "results: Input should be a valid list")
  end.

Definition validate_int (v : option PyValue) : outcome Z :=
  match v with
  | None => Return 0
  | Some (PyInt z) => Return z
  | Some (PyFloat x) =>
      if x mod 1000 =? 0 then Return (x / 1000)
      else Raise (ValidationError
                    "total_articles_processed: Input should be a valid integer, got a number with a fractional part")
  | Some _ =>
      Raise (ValidationError
               "total_articles_processed: Input should be a valid integer")
  end.

Definition validate_float (v : option PyValue) : outcome seconds :=
  match v with
  | None => Return 0
  | Some (PyFloat x) => Return x
  | Some (PyInt z) => Return (z * 1000)
  | Some _ =>
      Raise (ValidationError
               "total_time_taken: Input should be a valid number")
  end.

(** The constructor call with keyword arguments [kw].  The class sets
    no [model_config], so pydantic's default [extra='ignore'] applies:
    only the declared fields are looked up, every other keyword is
    dropped without an error.  A missing field takes its default; of
    pydantic's coercions between types, int to float and float without
    fractional part to int are modelled. *)
Definition new (kw : kwargs) : outcome t :=
  let! r := validate_results (kw_get "results" kw) in
  let! n := validate_int (kw_get "total_articles_processed" kw) in
  let! d := validate_float (kw_get "total_time_taken" kw) in
  Return (mk r n d).

(** [model_dump()]: the fields the instance carries. *)
Definition model_dump (r : t) : kwargs :=
  [("results", PyResults (results r));
   ("total_articles_processed", PyInt (total_articles_processed r));
   ("total_time_taken", PyFloat (total_time_taken r))]%string.
End NewsAgentReport.

(* ===================================================================== *)
(** ** The asyncio / concurrent.futures runtime, in virtual time *)
(* ===================================================================== *)

(** An awaitable that has run to completion: when it finished on the
    virtual clock and what it produced. *)
Record Done (A : Type) := mkDone {
  finished_at : seconds;
  result : outcome A
}.
Arguments mkDone {A} _ _.
Arguments finished_at {A} _.
Arguments result {A} _.

(** How much later than requested things happen, per task of a batch:
    the event loop waking a sleeping task, the pool handing a call to a
    worker, a worker oversleeping in [time.sleep]. *)
Record Lateness := mkLateness {
  loop_late : nat -> seconds;
  pool_late : nat -> seconds;
  cpu_late : nat -> seconds
}.

Definition on_time : Lateness :=
  mkLateness (fun _ => 0) (fun _ => 0) (fun _ => 0).

Definition punctual (L : Lateness) : Prop :=
  forall i, 0 <= loop_late L i /\ 0 <= pool_late L i /\ 0 <= cpu_late L i.

(** [await asyncio.sleep(delay)] started at [now]: a non-positive delay
    only yields to the loop once. *)
Definition asyncio_sleep (delay now late : seconds) : seconds :=
  now + Z.max 0 delay + late.

(** The interpreter keeps a time span as a signed 64-bit count of
    nanoseconds. *)
Definition PyTime_MIN : Z := - 2 ^ 63.
Definition PyTime_MAX : Z := 2 ^ 63 - 1.

(** The conversion of a number of seconds to that count: a tick of the
    virtual clock is a millisecond, that is [10 ^ 6] nanoseconds.  A
    value that does not fit is an [OverflowError] (the message is the one
    of CPython 3.11). *)
Definition _PyTime_FromSecondsObject (secs : seconds) : outcome Z :=
  let ns := secs * 10 ^ 6 in
  if (ns <? PyTime_MIN) || (PyTime_MAX <? ns)
  then Raise (OverflowError "timestamp too large to convert to C _PyTime_t")
  else Return ns.

(** The longest sleep the conversion accepts, in ticks: 9223372036.854
    seconds; the conversion accepts [secs] exactly when
    [- sleep_max <= secs <= sleep_max]. *)
Definition sleep_max : seconds := PyTime_MAX / 10 ^ 6.

(** The longest sleep, in ticks, that every platform carries out:
    [ULONG_MAX] milliseconds, about 49.7 days, where the Windows
    implementation of CPython before 3.11 stops. *)
Definition os_sleep_max : seconds := 2 ^ 32 - 1.

(** [time.sleep(secs)] started at [now]: the length is converted first,
    then a negative length is an error.  (For a length between
    [os_sleep_max] and [sleep_max] the operating system may refuse the
    wake-up time; this is not modelled, and the statements below that
    tell of a sleep carried out take a length of [os_sleep_max] at
    most.) *)
Definition time_sleep (secs now late : seconds) : outcome seconds :=
  let! ns := _PyTime_FromSecondsObject secs in
  if ns <? 0 then Raise (ValueError "sleep length must be non-negative")
  else Return (now + secs + late).

Module ProcessPoolExecutor.
(** [idle_at] has one entry per worker process: the time from which the
    worker is free to take the next queued call. *)
Record t := mk {
  max_workers : Z;
  shut_down : bool;
  idle_at : list seconds
}.

(** The largest worker count the standard library accepts on Windows;
    the other platforms accept more. *)
Definition _MAX_WINDOWS_WORKERS : Z := 63 - 2.

(** The constructor: the standard library rejects a non-positive
    [max_workers] with [ValueError].  (Platform limits on the number of
    processes are not modelled; a count of [_MAX_WINDOWS_WORKERS] at most
    is refused by no platform.) *)
Definition new (max_workers : Z) (now : seconds) : outcome t :=
  if max_workers <=? 0
  then Raise (ValueError "max_workers must be greater than 0")
  else Return (mk max_workers false (replicate (Z.to_nat max_workers) now)).

Fixpoint earliest_from (i best_i : nat) (best : seconds)
    (idle : list seconds) : nat :=
  match idle with
  | [] => best_i
  | x :: rest =>
      if x <? best then earliest_from (S i) i x rest
      else earliest_from (S i) best_i best rest
  end.

(** The worker that takes the next call of the queue: the first one to
    become free. *)
Definition earliest (idle : list seconds) : nat :=
  match idle with
  | [] => 0%nat
  | x :: rest => earliest_from 1 0 x rest
  end.

(** [submit] of a call at time [now]; [work start] is the call run on a
    worker from time [start] on.  Calls are taken from the queue in
    submission order. *)
Definition submit {A} (p : t) (now late : seconds)
    (work : seconds -> Done A) : outcome (t * Done A) :=
  if shut_down p
  then Raise (RuntimeError "cannot schedule new futures after shutdown")
  else
    let w := earliest (idle_at p) in
    let start := Z.max (default now (idle_at p !! w)) now + late in
    let d := work start in
    Return (mk (max_workers p) false (<[w := finished_at d]> (idle_at p)), d).

(** [shutdown(wait=True)] returns once every worker is idle. *)
Definition drained_at (p : t) (now : seconds) : seconds :=
  foldr Z.max now (idle_at p).

Definition shutdown (p : t) : t :=
  mk (max_workers p) true (idle_at p).
End ProcessPoolExecutor.

(** The fields of an [ExecutorManager] instance; [_executor] is [None] or
    a reference to a pool of the store. *)
Record ExecutorManager := mkExecutorManager {
  _max_workers : Z;
  _executor : option nat
}.

(** The store: the clock, and the mutable objects by reference. *)
Record World := mkWorld {
  clock : seconds;
  managers : list ExecutorManager;
  pools : list ProcessPoolExecutor.t
}.

Definition empty_world : World := mkWorld 0 [] [].

(** A coroutine object: nothing runs until the loop starts it, at [now],
    against the pools of the store. *)
Definition Coroutine (A : Type) : Type :=
  seconds -> list ProcessPoolExecutor.t ->
  list ProcessPoolExecutor.t * Done A.

(** The loop starts the tasks of a batch in list order, all at [now]. *)
Fixpoint run_all {A} (cs : list (Coroutine A)) (now : seconds)
    (ps : list ProcessPoolExecutor.t)
    : list ProcessPoolExecutor.t * list (Done A) :=
  match cs with
  | [] => (ps, [])
  | c :: rest =>
      let '(ps1, d) := c now ps in
      let '(ps2, ds) := run_all rest now ps1 in
      (ps2, d :: ds)
  end.

(** The failure a [gather] reports: the one that happened first on the
    clock, the earlier task winning a tie. *)
Fixpoint first_failure {A} (ds : list (Done A)) : option (seconds * PyExc) :=
  match ds with
  | [] => None
  | d :: rest =>
      match result d, first_failure rest with
      | Return _, r => r
      | Raise e, None => Some (finished_at d, e)
      | Raise e, Some (t', e') =>
          if finished_at d <=? t' then Some (finished_at d, e)
          else Some (t', e')
      end
  end.

Fixpoint values {A} (ds : list (Done A)) : list A :=
  match ds with
  | [] => []
  | d :: rest =>
      match result d with
      | Return a => a :: values rest
      | Raise _ => values rest
      end
  end.

Definition latest {A} (now : seconds) (ds : list (Done A)) : seconds :=
  foldr Z.max now (map finished_at ds).

(** [await asyncio.gather] over the coroutines [cs], with the default
    [return_exceptions=False]: the results in the order of the arguments
    once all are done, or the first exception as soon as it is raised. *)
Definition gather {A} (cs : list (Coroutine A)) (w : World)
    : World * outcome (list A) :=
  let '(ps, ds) := run_all cs (clock w) (pools w) in
  match first_failure ds with
  | Some (t, e) => (mkWorld t (managers w) ps, Raise e)
  | None => (mkWorld (latest (clock w) ds) (managers w) ps, Return (values ds))
  end.

(** Raised by the model where a reference names no object of the store;
    references handed out by the constructors below never do. *)
Definition dangling : PyExc := Exc "ReferenceError" "no such object" None.

(* ===================================================================== *)
(** ** src/tools/mock_news_api.py *)
(* ===================================================================== *)

Definition mock_content (url : string) : string :=
  "This is the mock content for the article at " +:+ url +:+ ". " +:+
  "It discusses a breakthrough in AI engineering, using asyncio and hybrid workloads. " +:+
  "Key entities include Gemini, Pydantic, and ProcessPoolExecutor. " +:+
  "The article also touches on multi-agent systems and real-world applications.".

Definition async_mock_fetch_article_content (url : string)
    (mock_fetch_delay : seconds) (late : seconds)
    : Coroutine RawArticleData.t :=
  fun now ps =>
    let start_time := now in
    let end_time := asyncio_sleep mock_fetch_delay now late in
    let fetch_duration := end_time - start_time in
    (ps, mkDone end_time
           (Return (RawArticleData.mk url (mock_content url) fetch_duration))).

Definition marker : string := "AI engineering".

Definition fixed_entities : list string :=
  ["Gemini"; "Pydantic"; "ProcessPoolExecutor"; "asyncio"]%string.

Definition summary_of (url : string) : string :=
  "Summary of " +:+ url +:+
  ": AI engineering concepts applied to multi-agent systems.".

(** The synchronous, blocking analysis; [now] is the time the worker
    starts the call. *)
Definition cpu_mock_analyze_article_text (raw_article_data : RawArticleData.t)
    (mock_analysis_time : seconds) (late : seconds) (now : seconds)
    : Done ArticleAnalysisResult.t :=
  let start_time := now in
  match time_sleep mock_analysis_time now late with
  | Raise e => mkDone now (Raise e)
  | Return woke =>
      let summary := summary_of (RawArticleData.url raw_article_data) in
      let category :=
        if contains marker (RawArticleData.content raw_article_data)
        then "Technology"%string else "General"%string in
      let entities := fixed_entities in
      let end_time := woke in
      let analysis_duration := end_time - start_time in
      mkDone end_time
        (Return (ArticleAnalysisResult.mk
                   (RawArticleData.url raw_article_data)
                   summary category entities analysis_duration))
  end.

(* ===================================================================== *)
(** ** src/utils/executor_manager.py *)
(* ===================================================================== *)

(** [ExecutorManager(max_workers)]: a new object of the store. *)
Definition ExecutorManager_init (max_workers : Z) (w : World) : World * nat :=
  (mkWorld (clock w)
     (managers w ++ [mkExecutorManager max_workers None]) (pools w),
   length (managers w)).

Definition __aenter__ (self : nat) (w : World) : World * outcome nat :=
  match managers w !! self with
  | None => (w, Raise dangling)
  | Some m =>
      match ProcessPoolExecutor.new (_max_workers m) (clock w) with
      | Raise e => (w, Raise e)
      | Return p =>
          (mkWorld (clock w)
             (<[self := mkExecutorManager (_max_workers m)
                          (Some (length (pools w)))]> (managers w))
             (pools w ++ [p]),
           Return self)
      end
  end.

(** The three exception arguments are not used; the method returns
    [None]. *)
Definition __aexit__ (self : nat) (w : World) : World * outcome unit :=
  match managers w !! self with
  | None => (w, Raise dangling)
  | Some m =>
      match _executor m with
      | Some r =>
          match pools w !! r with
          | None => (w, Raise dangling)
          | Some p =>
              (mkWorld (ProcessPoolExecutor.drained_at p (clock w))
                 (<[self := mkExecutorManager (_max_workers m) None]>
                    (managers w))
                 (<[r := ProcessPoolExecutor.shutdown p]> (pools w)),
               Return tt)
          end
      | None => (w, Return tt)
      end
  end.

(** The [executor] property. *)
Definition executor (self : nat) (w : World) : outcome nat :=
  match managers w !! self with
  | None => Raise dangling
  | Some m =>
      match _executor m with
      | Some r => Return r
      | None =>
          Raise (RuntimeError
            "Executor not initialized. Use ExecutorManager as an async context manager.")
      end
  end.

(** [loop.run_in_executor(executor, func, args...)]: [call] is [func]
    applied to its arguments, waiting for the time a worker starts it.
    An exception raised in the worker reaches the caller with its class
    and its message; the traceback text the pool attaches to it as
    [__cause__] is not modelled. *)
Definition run_cpu_task_in_executor {A} (executor : nat) (late : seconds)
    (call : seconds -> Done A) : Coroutine A :=
  fun now ps =>
    match ps !! executor with
    | None => (ps, mkDone now (Raise dangling))
    | Some p =>
        match ProcessPoolExecutor.submit p now late call with
        | Raise e => (ps, mkDone now (Raise e))
        | Return (p', d) => (<[executor := p']> ps, d)
        end
    end.

(* ===================================================================== *)
(** ** src/agent/strategies.py *)
(* ===================================================================== *)

(** The abstract base class: a strategy is its configuration and its
    [process_article] method.  The first argument is the position of the
    task in its batch, which selects the lateness it meets. *)
Record ResearchStrategy := mkStrategy {
  strategy_config : AgentConfig.t;
  process_article :
    nat -> RawArticleData.t -> nat -> Coroutine ArticleAnalysisResult.t
}.

Definition SummarizeCategorizeStrategy (L : Lateness)
    (agent_config : AgentConfig.t) : ResearchStrategy :=
  mkStrategy agent_config
    (fun i raw_article_data executor =>
       run_cpu_task_in_executor executor (pool_late L i)
         (cpu_mock_analyze_article_text raw_article_data
            (AgentConfig.mock_analysis_time agent_config) (cpu_late L i))).

(* ===================================================================== *)
(** ** src/agent/news_agent.py *)
(* ===================================================================== *)

Record NewsArticleAgent := mkAgent {
  agent_config : AgentConfig.t;
  executor_manager : nat;
  strategy : ResearchStrategy
}.

Definition NewsArticleAgent_init (agent_config : AgentConfig.t)
    (executor_manager : nat)
    (strategy_type : AgentConfig.t -> ResearchStrategy) : NewsArticleAgent :=
  mkAgent agent_config executor_manager (strategy_type agent_config).

(** The type of the fetch collaborator the module imports: position in
    the batch, url, delay. *)
Definition Fetch : Type :=
  nat -> string -> seconds -> Coroutine RawArticleData.t.

(** The list comprehension building [process_tasks]: the [executor]
    property is read once per article, and a failure of the property ends
    the comprehension. *)
Fixpoint build_process_tasks (self : NewsArticleAgent) (w : World)
    (i : nat) (all_raw_articles : list RawArticleData.t)
    : outcome (list (Coroutine ArticleAnalysisResult.t)) :=
  match all_raw_articles with
  | [] => Return []
  | raw_article :: rest =>
      let! ex := executor (executor_manager self) w in
      let! tasks := build_process_tasks self w (S i) rest in
      Return (process_article (strategy self) i raw_article ex :: tasks)
  end.

(** The keyword arguments of the [NewsAgentReport] call that ends
    [research]. *)
Definition report_kwargs (all_analysis_results : list ArticleAnalysisResult.t)
    (urls : list string) (total_duration : seconds) : kwargs :=
  [("results", PyResults all_analysis_results);
   ("total_articles_processed", PyInt (Z.of_nat (length urls)));
   ("total_time_taken", PyFloat total_duration);
   ("total_duration", PyFloat total_duration)]%string.

(** The body of [research], with the module-level name of the fetch
    collaborator as a parameter.  (The statements after the first
    [return] of the source are unreachable.) *)
Definition research_with (fetch : Fetch) (self : NewsArticleAgent)
    (urls : list string) (w : World) : World * outcome NewsAgentReport.t :=
  let start_time := clock w in
  let fetch_tasks :=
    imap (fun i url =>
            fetch i url (AgentConfig.mock_fetch_delay (agent_config self)))
         urls in
  match gather fetch_tasks w with
  | (w1, Raise e) => (w1, Raise e)
  | (w1, Return all_raw_articles) =>
      match build_process_tasks self w1 0 all_raw_articles with
      | Raise e => (w1, Raise e)
      | Return process_tasks =>
          match gather process_tasks w1 with
          | (w2, Raise e) => (w2, Raise e)
          | (w2, Return all_analysis_results) =>
              let end_time := clock w2 in
              let total_duration := end_time - start_time in
              (w2,
               NewsAgentReport.new
                 (report_kwargs all_analysis_results urls total_duration))
          end
      end
  end.

(** The module's fetch collaborator. *)
Definition mock_fetch (L : Lateness) : Fetch :=
  fun i url delay => async_mock_fetch_article_content url delay (loop_late L i).

Definition research (L : Lateness) (self : NewsArticleAgent)
    (urls : list string) (w : World) : World * outcome NewsAgentReport.t :=
  research_with (mock_fetch L) self urls w.

(* ===================================================================== *)
(** ** Sample objects used by the examples below *)
(* ===================================================================== *)

(** A store holding one manager that has been entered with two workers. *)
Definition demo_world : World :=
  let '(w, m) := ExecutorManager_init 2 empty_world in fst (__aenter__ m w).

(** The configuration of the integration tests. *)
Definition demo_config : AgentConfig.t := AgentConfig.mk 2 100 200 5000.

Definition demo_agent : NewsArticleAgent :=
  NewsArticleAgent_init demo_config 0 (SummarizeCategorizeStrategy on_time).

Definition demo_urls : list string :=
  ["http://mock.test/article1"; "http://mock.test/article2";
   "http://mock.test/article3"; "http://mock.test/article4"]%string.

(* ===================================================================== *)
(** ** Notions used in the statements *)
(* ===================================================================== *)

(** What the analysis output is, as a relation between the article and
    the result (the duration left aside). *)
Definition analysis_of (raw : RawArticleData.t)
    (r : ArticleAnalysisResult.t) : Prop :=
  ArticleAnalysisResult.url r = RawArticleData.url raw /\
  ArticleAnalysisResult.summary r = summary_of (RawArticleData.url raw) /\
  ArticleAnalysisResult.category r =
    (if contains marker (RawArticleData.content raw)
     then "Technology" else "General")%string /\
  ArticleAnalysisResult.entities r = fixed_entities.

(** The part of a result the analysis decides: everything but the
    measured duration. *)
Definition analysis_output (r : ArticleAnalysisResult.t)
    : string * string * string * list string :=
  (ArticleAnalysisResult.url r, ArticleAnalysisResult.summary r,
   ArticleAnalysisResult.category r, ArticleAnalysisResult.entities r).

(** A pool as its constructor builds it and [submit] keeps it: a positive
    width and one [idle_at] entry per worker. *)
Definition pool_wf (p : ProcessPoolExecutor.t) : Prop :=
  0 < ProcessPoolExecutor.max_workers p /\
  length (ProcessPoolExecutor.idle_at p) =
    Z.to_nat (ProcessPoolExecutor.max_workers p).

(** The least [k] with [n <= k * w], for [0 < w]. *)
Definition ceil_div (n w : Z) : Z := (n + w - 1) / w.

(** The first batch of [research]: one fetch per url. *)
Definition fetch_tasks_of (fetch : Fetch) (self : NewsArticleAgent)
    (urls : list string) : list (Coroutine RawArticleData.t) :=
  imap (fun i url =>
          fetch i url (AgentConfig.mock_fetch_delay (agent_config self)))
       urls.

(** Bookkeeping for a batch handed to a pool at time [now], every call
    taking at least [P]: [cnt] counts the calls each worker has taken; a
    worker that took [c > 0] of them is busy until [now + c * P] at least,
    and until the end [M] of the batch at most. *)
Definition busy_inv (now P M : seconds) (idle : list seconds)
    (cnt : list nat) : Prop :=
  length cnt = length idle /\
  forall w c f,
    cnt !! w = Some c -> idle !! w = Some f -> (0 < c)%nat ->
    now + Z.of_nat c * P <= f /\ f <= M.

(** A fetch collaborator whose every call fails after the delay. *)
Definition failing_fetch : Fetch :=
  fun i url delay now ps =>
    (ps, mkDone (asyncio_sleep delay now 0)
           (Raise (Exc "ConnectionError" url None))).

(** The test configuration with a negative analysis time. *)
Definition negative_config : AgentConfig.t := AgentConfig.mk 2 100 (-1) 5000.

(* ===================================================================== *)
(** ** main.py *)
(* ===================================================================== *)

Definition ZeroDivisionError (msg : string) : PyExc :=
  Exc "ZeroDivisionError" msg None.

(** [await c] of a single coroutine: the caller resumes when it is done. *)
Definition await {A} (c : Coroutine A) (w : World) : World * outcome A :=
  let '(ps, d) := c (clock w) (pools w) in
  (mkWorld (finished_at d) (managers w) ps, result d).

(** A synchronous call made on the loop's own thread: the clock moves to
    the end of the call. *)
Definition blocking {A} (call : seconds -> Done A) (w : World)
    : World * outcome A :=
  let d := call (clock w) in
  (mkWorld (finished_at d) (managers w) (pools w), result d).

Definition mock_article_urls : list string :=
  ["http://example.com/ai_breakthrough_1";
   "http://example.com/quantum_computing_2";
   "http://example.com/robotics_advances_3";
   "http://example.com/mlops_best_practices_4";
   "http://example.com/data_privacy_concerns_5";
   "http://example.com/ethical_ai_guidelines_6"]%string.

(** The sequential comparison loop: per url, one awaited fetch and then
    the analysis called directly, the result appended to the list.  [i]
    is the position of the url, which selects the lateness it meets. *)
Fixpoint sequential_loop (L : Lateness) (agent_config : AgentConfig.t)
    (i : nat) (urls : list string) (w : World)
    : World * outcome (list ArticleAnalysisResult.t) :=
  match urls with
  | [] => (w, Return [])
  | url :: rest =>
      match await (async_mock_fetch_article_content url
                     (AgentConfig.mock_fetch_delay agent_config)
                     (loop_late L i)) w with
      | (w1, Raise e) => (w1, Raise e)
      | (w1, Return raw_data) =>
          match blocking (cpu_mock_analyze_article_text raw_data
                            (AgentConfig.mock_analysis_time agent_config)
                            (cpu_late L i)) w1 with
          | (w2, Raise e) => (w2, Raise e)
          | (w2, Return analysis_result) =>
              match sequential_loop L agent_config (S i) rest w2 with
              | (w3, Raise e) => (w3, Raise e)
              | (w3, Return sequential_results) =>
                  (w3, Return (analysis_result :: sequential_results))
              end
          end
      end
  end.

(** What [main] writes to stdout, the banners and the number formats
    left aside: the report block, the line with the sequential duration,
    the line with the speedup quotient, the one-line diagnostic. *)
Inductive Printed : Type :=
| FinalReport (report : NewsAgentReport.t)
| SequentialTime (sequential_duration : seconds)
| Speedup (sequential_duration hybrid_duration : seconds)
| ErrorOccurred (e : PyExc).

(** The statements inside [try]. *)
Definition main_try (L Lseq : Lateness) (agent : NewsArticleAgent)
    (agent_config : AgentConfig.t) (w : World)
    : World * list Printed * outcome unit :=
  match research L agent mock_article_urls w with
  | (w1, Raise e) => (w1, [], Raise e)
  | (w1, Return report) =>
      let sequential_start_time := clock w1 in
      match sequential_loop Lseq agent_config 0 mock_article_urls w1 with
      | (w2, Raise e) => (w2, [FinalReport report], Raise e)
      | (w2, Return sequential_results) =>
          let sequential_end_time := clock w2 in
          let sequential_duration :=
            sequential_end_time - sequential_start_time in
          if NewsAgentReport.total_time_taken report =? 0
          then (w2, [FinalReport report; SequentialTime sequential_duration],
                Raise (ZeroDivisionError "float division by zero"))
          else (w2, [FinalReport report; SequentialTime sequential_duration;
                     Speedup sequential_duration
                       (NewsAgentReport.total_time_taken report)],
                Return tt)
      end
  end.

(** [try: ... except Exception as e: print(...)]. *)
Definition main_body (L Lseq : Lateness) (agent : NewsArticleAgent)
    (agent_config : AgentConfig.t) (w : World)
    : World * list Printed * outcome unit :=
  match main_try L Lseq agent agent_config w with
  | (w1, out, Raise e) => (w1, out ++ [ErrorOccurred e], Return tt)
  | (w1, out, Return _) => (w1, out, Return tt)
  end.

(** [main], for the configuration the settings class loaded.  The
    [async with] block enters the manager, runs the body and exits the
    manager on the way out; a failure to enter is raised before the
    body. *)
Definition main (L Lseq : Lateness) (agent_config : AgentConfig.t)
    (w : World) : World * list Printed * outcome unit :=
  let '(w1, mgr) :=
    ExecutorManager_init (AgentConfig.max_cpu_workers agent_config) w in
  match __aenter__ mgr w1 with
  | (w2, Raise e) => (w2, [], Raise e)
  | (w2, Return executor_manager) =>
      let agent :=
        NewsArticleAgent_init agent_config executor_manager
          (SummarizeCategorizeStrategy L) in
      match main_body L Lseq agent agent_config w2 with
      | (w3, out, Raise e) =>
          (fst (__aexit__ mgr w3), out, Raise e)
      | (w3, out, Return _) =>
          match __aexit__ mgr w3 with
          | (w4, Raise e) => (w4, out, Raise e)
          | (w4, Return _) => (w4, out, Return tt)
          end
      end
  end.

(** [NewsArticleAgent.shutdown]: nothing but a message. *)
Definition shutdown (self : NewsArticleAgent) (w : World)
    : World * outcome unit :=
  (w, Return tt).

(** What [research] decides about one url, the duration left aside. *)
Definition expected_output (url : string)
    : string * string * string * list string :=
  (url, summary_of url, "Technology"%string, fixed_entities).

(** What a pool is apart from the times of its workers. *)
Definition pool_shape (p : ProcessPoolExecutor.t) : Z * bool * nat :=
  (ProcessPoolExecutor.max_workers p, ProcessPoolExecutor.shut_down p,
   length (ProcessPoolExecutor.idle_at p)).

(** All workers of the pool are free at [now]. *)
Definition all_idle (p : ProcessPoolExecutor.t) (now : seconds) : Prop :=
  Forall (fun t => t <= now) (ProcessPoolExecutor.idle_at p).

(** Bounds on the lateness of the tasks: nothing is early, the loop wakes
    a sleeping task at most [a] late, the pool takes at most [b] to hand
    a call to a free worker, a worker oversleeps by at most [c]. *)
Definition late_within (a b c : seconds) (L : Lateness) : Prop :=
  forall i,
    0 <= loop_late L i <= a /\ 0 <= pool_late L i <= b /\
    0 <= cpu_late L i <= c.

(** Bookkeeping for a batch of calls handed at time [now] to a pool, each
    keeping its worker for [Q] at most: a worker that took [c] of them is
    free again [c * Q] after [now] at the latest. *)
Definition load_inv (now Q : seconds) (idle : list seconds)
    (cnt : list nat) : Prop :=
  length cnt = length idle /\
  forall w c f,
    cnt !! w = Some c -> idle !! w = Some f -> f <= now + Z.of_nat c * Q.

(** The articles the fetch batch of [research] returns when started at
    [now], and the time at which the batch is complete. *)
Definition fetched (L : Lateness) (delay now : seconds)
    (urls : list string) : list RawArticleData.t :=
  imap (fun i u =>
          RawArticleData.mk u (mock_content u)
            (asyncio_sleep delay now (loop_late L i) - now))
       urls.

Definition fetch_end (L : Lateness) (delay now : seconds)
    (urls : list string) : seconds :=
  latest now
    (imap (fun i u =>
             mkDone (asyncio_sleep delay now (loop_late L i))
               (Return
                  (RawArticleData.mk u (mock_content u)
                     (asyncio_sleep delay now (loop_late L i) - now))))
          urls).

(** The store in which the body of [main]'s [async with] runs: one more
    manager, holding one more pool, open, of the configured width. *)
Definition entered (n : Z) (w : World) : World :=
  mkWorld (clock w)
    (managers w ++ [mkExecutorManager n (Some (length (pools w)))])
    (pools w ++
     [ProcessPoolExecutor.mk n false (replicate (Z.to_nat n) (clock w))]).

(* ===================================================================== *)
(** ** Facts about [gather] *)
(* ===================================================================== *)

Section Gather.
Context {A : Type}.
Implicit Types (ds : list (Done A)) (cs : list (Coroutine A)).

Lemma run_all_length cs now ps :
  length (snd (run_all cs now ps)) = length cs.
Proof.
  revert ps. induction cs as [|c cs IH]; intros ps; simpl; [reflexivity|].
  destruct (c now ps) as [ps1 d].
  specialize (IH ps1). destruct (run_all cs now ps1) as [ps2 ds].
  simpl in *. now rewrite IH.
Qed.

(** No failure: every task returned, and [values] lists the results
    position by position. *)
Lemma first_failure_None ds :
  first_failure ds = None -> map result ds = map Return (values ds).
Proof.
  induction ds as [|d ds IH]; simpl; [reflexivity|].
  destruct (result d) as [a|e] eqn:Hd.
  - intros H. simpl. now rewrite IH.
  - destruct (first_failure ds) as [[t' e']|]; [|discriminate].
    destruct (finished_at d <=? t'); discriminate.
Qed.

Lemma values_length ds :
  first_failure ds = None -> length (values ds) = length ds.
Proof.
  intros H%first_failure_None.
  apply (f_equal (@length _)) in H. rewrite !length_map in H. lia.
Qed.

Lemma all_return_no_failure ds :
  Forall (fun d => is_return (result d) = true) ds ->
  first_failure ds = None.
Proof.
  induction 1 as [|d ds Hd _ IH]; simpl; [reflexivity|].
  destruct (result d); [exact IH | discriminate].
Qed.

(** The reported failure is the exception of one of the tasks, none of
    the failed tasks finished before it, and among the tasks that
    failed at the same time it is the first of the batch. *)
Lemma first_failure_Some ds t e :
  first_failure ds = Some (t, e) ->
  exists i d,
    ds !! i = Some d /\ result d = Raise e /\ finished_at d = t /\
    (forall j d' e',
       ds !! j = Some d' -> result d' = Raise e' ->
       t <= finished_at d' /\ (finished_at d' = t -> (i <= j)%nat)).
Proof.
  revert t e. induction ds as [|d ds IH]; intros t e; simpl; [discriminate|].
  destruct (result d) as [a|e0] eqn:Hd.
  - intros H. destruct (IH _ _ H) as (i & d1 & Hi & Hr & Ht & Hmin).
    exists (S i), d1. repeat split; try assumption.
    + destruct j as [|j]; simpl in *.
      * congruence.
      * eapply Hmin; eassumption.
    + intros Heq. destruct j as [|j]; simpl in *.
      * congruence.
      * apply le_n_S. eapply Hmin; eassumption.
  - destruct (first_failure ds) as [[t' e']|] eqn:Hff.
    + destruct (Z.leb_spec (finished_at d) t') as [Hle|Hgt]; intros H;
        inversion H; subst; clear H.
      * destruct (IH _ _ eq_refl) as (i & d1 & Hi & Hr & Ht & Hmin).
        exists 0%nat, d. repeat split; try assumption; try reflexivity.
        -- destruct j as [|j]; simpl in *.
           ++ inversion H; subst. lia.
           ++ destruct (Hmin _ _ _ H H0). lia.
        -- lia.
      * destruct (IH _ _ eq_refl) as (i & d1 & Hi & Hr & Ht & Hmin).
        exists (S i), d1. repeat split; try assumption.
        -- destruct j as [|j]; simpl in *.
           ++ inversion H; subst. lia.
           ++ eapply Hmin; eassumption.
        -- intros Heq. destruct j as [|j]; simpl in *.
           ++ inversion H; subst. lia.
           ++ apply le_n_S. eapply Hmin; eassumption.
    + intros H; inversion H; subst; clear H.
      exists 0%nat, d. repeat split; try assumption; try reflexivity.
      * destruct j as [|j]; simpl in *.
        -- inversion H; subst. lia.
        -- clear IH. exfalso. revert j H Hff.
           induction ds as [|x ds IHds]; intros j H Hff; [discriminate|].
           simpl in Hff. destruct j as [|j]; simpl in H.
           ++ inversion H; subst. rewrite H0 in Hff.
              destruct (first_failure ds) as [[? ?]|]; [|discriminate].
              destruct (_ <=? _); discriminate.
           ++ destruct (result x).
              ** eapply IHds; eassumption.
              ** destruct (first_failure ds) as [[? ?]|]; [|discriminate].
                 destruct (_ <=? _); discriminate.
      * lia.
Qed.

(** A failing task makes the batch fail. *)
Lemma first_failure_exists ds i d e :
  ds !! i = Some d -> result d = Raise e ->
  exists t e', first_failure ds = Some (t, e').
Proof.
  revert i. induction ds as [|x ds IH]; intros i Hi Hr; [discriminate|].
  simpl. destruct i as [|i]; simpl in Hi.
  - inversion Hi; subst. rewrite Hr.
    destruct (first_failure ds) as [[t' e']|]; [|eauto].
    destruct (_ <=? _); eauto.
  - destruct (IH _ Hi Hr) as (t & e' & Hff). rewrite Hff.
    destruct (result x); [eauto|]. destruct (_ <=? _); eauto.
Qed.

(** What [gather] returns, in terms of the completed tasks. *)
Lemma gather_Return cs w w' l :
  gather cs w = (w', Return l) ->
  first_failure (snd (run_all cs (clock w) (pools w))) = None /\
  l = values (snd (run_all cs (clock w) (pools w))) /\
  clock w' = latest (clock w) (snd (run_all cs (clock w) (pools w))) /\
  pools w' = fst (run_all cs (clock w) (pools w)) /\
  managers w' = managers w /\
  length l = length cs.
Proof.
  unfold gather. intros H.
  pose proof (run_all_length cs (clock w) (pools w)) as Hlen.
  destruct (run_all cs (clock w) (pools w)) as [ps ds]. simpl in *.
  destruct (first_failure ds) as [[t e]|] eqn:Hff; inversion H; subst.
  repeat split; try reflexivity. rewrite values_length; assumption.
Qed.

Lemma gather_Raise cs w w' e :
  gather cs w = (w', Raise e) ->
  exists t, first_failure (snd (run_all cs (clock w) (pools w))) = Some (t, e)
            /\ clock w' = t.
Proof.
  unfold gather. intros H.
  destruct (run_all cs (clock w) (pools w)) as [ps ds]. simpl in *.
  destruct (first_failure ds) as [[t e0]|] eqn:Hff; inversion H; subst.
  eauto.
Qed.
End Gather.

(* ===================================================================== *)
(** ** Running a batch built from a list *)
(* ===================================================================== *)

(** Tasks that leave the pools alone: the batch leaves them alone too and
    the completed tasks are listed position by position. *)
Lemma run_all_pure {A B} (l : list B) :
  forall (f : nat -> B -> Coroutine A) (g : nat -> B -> seconds -> Done A),
    (forall i b now ps, f i b now ps = (ps, g i b now)) ->
    forall now ps,
      run_all (imap f l) now ps = (ps, imap (fun i b => g i b now) l).
Proof.
  induction l as [|x l IH]; intros f g Hfg now ps; simpl; [reflexivity|].
  rewrite Hfg.
  rewrite (IH (f ∘ S) (g ∘ S)) by (intros; apply Hfg).
  reflexivity.
Qed.

(** A property every task of the batch establishes holds position by
    position, whatever the pools were when the task ran. *)
Lemma run_all_Forall2 {A X} (Q : X -> Done A -> Prop) (xs : list X) :
  forall (mk : nat -> X -> Coroutine A),
    (forall i x now ps, Q x (snd (mk i x now ps))) ->
    forall now ps, Forall2 Q xs (snd (run_all (imap mk xs) now ps)).
Proof.
  induction xs as [|x xs IH]; intros mk Hmk now ps; simpl; [constructor|].
  pose proof (Hmk 0%nat x now ps) as Hx.
  destruct (mk 0%nat x now ps) as [ps1 d]. simpl in Hx.
  specialize (IH (mk ∘ S) (fun i => Hmk (S i)) now ps1).
  destruct (run_all (imap (mk ∘ S) xs) now ps1) as [ps2 ds]. simpl in *.
  constructor; assumption.
Qed.

Lemma Forall2_values {A X} (Q : X -> Done A -> Prop) (P : X -> A -> Prop)
    (xs : list X) (ds : list (Done A)) :
  (forall x d a, Q x d -> result d = Return a -> P x a) ->
  Forall2 Q xs ds -> first_failure ds = None -> Forall2 P xs (values ds).
Proof.
  intros HQP HF. induction HF as [|x d xs ds Hxd _ IH]; simpl; [constructor|].
  destruct (result d) as [a|e] eqn:Hd.
  - intros Hff. constructor; [eapply HQP; eassumption | apply IH, Hff].
  - destruct (first_failure ds) as [[t' e']|]; [|discriminate].
    destruct (_ <=? _); discriminate.
Qed.

(** The comprehension reads the property once per article: it fails as
    the property does when there is an article, and otherwise pairs every
    article with the executor. *)
Lemma build_process_tasks_eq self w raws :
  forall i,
    build_process_tasks self w i raws =
    match raws with
    | [] => Return []
    | _ :: _ =>
        let! ex := executor (executor_manager self) w in
        Return (imap (fun j raw =>
                        process_article (strategy self) (i + j) raw ex) raws)
    end.
Proof.
  induction raws as [|raw raws IH]; intros i;
    cbn [build_process_tasks]; [reflexivity|].
  destruct (executor (executor_manager self) w) as [ex|e] eqn:Hex;
    cbn [bind]; [|reflexivity].
  rewrite IH. destruct raws as [|raw' raws].
  - cbn [bind imap]. rewrite Nat.add_0_r. reflexivity.
  - cbn [bind]. f_equal.
    rewrite (imap_cons _ raw (raw' :: raws)). rewrite Nat.add_0_r.
    f_equal. apply imap_ext. intros j y _. unfold compose.
    f_equal. lia.
Qed.

(** What a successful [research] went through. *)
Lemma research_with_Return fetch self urls w w' report :
  research_with fetch self urls w = (w', Return report) ->
  exists w1 raws tasks results,
    gather (imap (fun i url =>
                    fetch i url
                      (AgentConfig.mock_fetch_delay (agent_config self)))
                 urls) w = (w1, Return raws) /\
    build_process_tasks self w1 0 raws = Return tasks /\
    gather tasks w1 = (w', Return results) /\
    report = NewsAgentReport.mk results (Z.of_nat (length urls))
               (clock w' - clock w).
Proof.
  unfold research_with. intros H.
  destruct (gather _ w) as [w1 [raws|e]] eqn:Hg1; [|discriminate].
  destruct (build_process_tasks self w1 0 raws) as [tasks|e] eqn:Hb;
    [|discriminate].
  destruct (gather tasks w1) as [w2 [results|e]] eqn:Hg2; [|discriminate].
  unfold NewsAgentReport.new, report_kwargs in H. simpl in H.
  inversion H; subst. eauto 10.
Qed.

Lemma research_with_gathered fetch self urls w w1 raws tasks w2 results :
  gather (imap (fun i url =>
                  fetch i url
                    (AgentConfig.mock_fetch_delay (agent_config self)))
               urls) w = (w1, Return raws) ->
  build_process_tasks self w1 0 raws = Return tasks ->
  gather tasks w1 = (w2, Return results) ->
  research_with fetch self urls w =
  (w2, Return (NewsAgentReport.mk results (Z.of_nat (length urls))
                 (clock w2 - clock w))).
Proof.
  intros Hg1 Hb Hg2. unfold research_with. rewrite Hg1, Hb, Hg2.
  reflexivity.
Qed.

(* ===================================================================== *)
(** ** The mock collaborators *)
(* ===================================================================== *)

Lemma contains_app_r needle s1 s2 :
  contains needle s2 = true -> contains needle (s1 +:+ s2) = true.
Proof.
  intros H. induction s1 as [|c s1 IH]; simpl; [exact H|].
  rewrite IH. destruct needle as [|a needle]; [reflexivity|].
  destruct (ascii_dec a c); [|reflexivity].
  destruct (String.prefix needle (s1 +:+ s2)); reflexivity.
Qed.

Lemma mock_content_has_marker url :
  contains marker (mock_content url) = true.
Proof.
  unfold mock_content. do 2 apply contains_app_r. reflexivity.
Qed.

(** The three cases of [time.sleep]: the lengths from 0 to [sleep_max]
    are slept, the negative ones down to [- sleep_max] are refused with
    [ValueError], and all others do not convert. *)
Lemma time_sleep_cases secs now late :
  (0 <= secs <= sleep_max /\
   time_sleep secs now late = Return (now + secs + late)) \/
  (- sleep_max <= secs < 0 /\
   time_sleep secs now late
   = Raise (ValueError "sleep length must be non-negative")) \/
  ((secs < - sleep_max \/ sleep_max < secs) /\
   time_sleep secs now late
   = Raise (OverflowError "timestamp too large to convert to C _PyTime_t")).
Proof.
  unfold time_sleep, _PyTime_FromSecondsObject, sleep_max, PyTime_MIN,
    PyTime_MAX.
  change (10 ^ 6) with 1000000.
  change (- 2 ^ 63) with (-9223372036854775808).
  change (2 ^ 63 - 1) with 9223372036854775807.
  change (9223372036854775807 / 1000000) with 9223372036854.
  destruct (Z.ltb_spec (secs * 1000000) (-9223372036854775808)) as [Hlo|Hlo];
    cbn [orb bind].
  { right; right. split; [lia | reflexivity]. }
  destruct (Z.ltb_spec 9223372036854775807 (secs * 1000000)) as [Hhi|Hhi];
    cbn [bind].
  { right; right. split; [lia | reflexivity]. }
  destruct (Z.ltb_spec (secs * 1000000) 0) as [Hneg|Hpos].
  - right; left. split; [lia | reflexivity].
  - left. split; [lia | reflexivity].
Qed.

Lemma time_sleep_Return secs now late woke :
  time_sleep secs now late = Return woke ->
  0 <= secs <= sleep_max /\ woke = now + secs + late.
Proof.
  destruct (time_sleep_cases secs now late)
    as [[H ->]|[[H ->]|[H ->]]]; intros E; [|discriminate E..].
  injection E as <-. auto.
Qed.

Lemma time_sleep_returns secs now late :
  0 <= secs <= sleep_max ->
  time_sleep secs now late = Return (now + secs + late).
Proof.
  intros H. destruct (time_sleep_cases secs now late)
    as [[_ E]|[[H' _]|[H' _]]]; [exact E | lia | lia].
Qed.

Lemma time_sleep_negative secs now late :
  - sleep_max <= secs < 0 ->
  time_sleep secs now late
  = Raise (ValueError "sleep length must be non-negative").
Proof.
  intros H. destruct (time_sleep_cases secs now late)
    as [[H' _]|[[_ E]|[H' _]]]; [lia | exact E | lia].
Qed.

Lemma time_sleep_overflow secs now late :
  secs < - sleep_max \/ sleep_max < secs ->
  time_sleep secs now late
  = Raise (OverflowError "timestamp too large to convert to C _PyTime_t").
Proof.
  intros H. destruct (time_sleep_cases secs now late)
    as [[H' _]|[[H' _]|[_ E]]]; [lia | lia | exact E].
Qed.

Lemma os_sleep_max_fits t : 0 <= t <= os_sleep_max -> 0 <= t <= sleep_max.
Proof.
  unfold os_sleep_max, sleep_max, PyTime_MAX.
  change (2 ^ 32 - 1) with 4294967295.
  change ((2 ^ 63 - 1) / 10 ^ 6) with 9223372036854. lia.
Qed.

Lemma cpu_mock_Return raw t late now r :
  result (cpu_mock_analyze_article_text raw t late now) = Return r ->
  analysis_of raw r /\ 0 <= t <= sleep_max /\
  ArticleAnalysisResult.analysis_time r = t + late /\
  finished_at (cpu_mock_analyze_article_text raw t late now) = now + t + late.
Proof.
  unfold cpu_mock_analyze_article_text.
  destruct (time_sleep t now late) as [woke|e] eqn:Hsleep;
    cbn [result finished_at]; [|discriminate].
  apply time_sleep_Return in Hsleep as [Ht ->].
  intros H; inversion H; subst; clear H. unfold analysis_of; simpl.
  repeat split; try reflexivity; lia.
Qed.

Lemma cpu_mock_returns raw t late now :
  0 <= t <= sleep_max ->
  exists r, result (cpu_mock_analyze_article_text raw t late now) = Return r.
Proof.
  intros Ht. unfold cpu_mock_analyze_article_text.
  rewrite (time_sleep_returns t now late Ht). simpl. eauto.
Qed.

(** A length [time.sleep] refuses: the call ends at once with the
    exception of [time.sleep]. *)
Lemma cpu_mock_raises raw t late now e :
  time_sleep t now late = Raise e ->
  cpu_mock_analyze_article_text raw t late now = mkDone now (Raise e).
Proof.
  intros H. unfold cpu_mock_analyze_article_text. rewrite H. reflexivity.
Qed.

(** A task handed to a pool either fails with the pool's refusal, at
    once, or is the call run from some start time not before [now]. *)
Lemma run_cpu_task_Return {A} ex late (call : seconds -> Done A) now ps ps' d a :
  run_cpu_task_in_executor ex late call now ps = (ps', d) ->
  result d = Return a ->
  exists p,
    ps !! ex = Some p /\ ProcessPoolExecutor.shut_down p = false /\
    let w := ProcessPoolExecutor.earliest (ProcessPoolExecutor.idle_at p) in
    let start :=
      Z.max (default now (ProcessPoolExecutor.idle_at p !! w)) now + late in
    d = call start /\
    ps' = <[ex := ProcessPoolExecutor.mk (ProcessPoolExecutor.max_workers p)
                    false
                    (<[w := finished_at d]> (ProcessPoolExecutor.idle_at p))]>
            ps.
Proof.
  unfold run_cpu_task_in_executor, ProcessPoolExecutor.submit.
  destruct (ps !! ex) as [p|] eqn:Hp.
  - destruct (ProcessPoolExecutor.shut_down p) eqn:Hs.
    + intros H; inversion H; subst; discriminate.
    + intros H Hr; inversion H; subst. exists p. auto.
  - intros H; inversion H; subst; discriminate.
Qed.

Lemma process_article_Return L cfg i raw ex now ps r :
  result (snd (process_article (SummarizeCategorizeStrategy L cfg)
                 i raw ex now ps)) = Return r ->
  analysis_of raw r.
Proof.
  simpl. intros H.
  destruct (run_cpu_task_in_executor _ _ _ now ps) as [ps' d] eqn:Hrun.
  simpl in H.
  destruct (run_cpu_task_Return _ _ _ _ _ _ _ _ Hrun H) as (p & _ & _ & Hd & _).
  rewrite Hd in H. apply cpu_mock_Return in H. tauto.
Qed.


(* ===================================================================== *)
(** ** The provided strategy *)
(* ===================================================================== *)



(** C4.  Two calls of the provided strategy on the same article, at any
    two times, on any two pools and with any lateness, that both return
    a result, agree on url, summary, category and entities. *)
Theorem provided_strategy_deterministic
    L1 L2 cfg i1 i2 raw ex1 ex2 now1 now2 ps1 ps2 r1 r2 :
  result (snd (process_article (SummarizeCategorizeStrategy L1 cfg)
                 i1 raw ex1 now1 ps1)) = Return r1 ->
  result (snd (process_article (SummarizeCategorizeStrategy L2 cfg)
                 i2 raw ex2 now2 ps2)) = Return r2 ->
  ArticleAnalysisResult.url r1 = ArticleAnalysisResult.url r2 /\
  ArticleAnalysisResult.summary r1 = ArticleAnalysisResult.summary r2 /\
  ArticleAnalysisResult.category r1 = ArticleAnalysisResult.category r2 /\
  ArticleAnalysisResult.entities r1 = ArticleAnalysisResult.entities r2.
Proof.
  intros H1%process_article_Return H2%process_article_Return.
  destruct H1 as (Hu1 & Hs1 & Hc1 & He1), H2 as (Hu2 & Hs2 & Hc2 & He2).
  repeat split; congruence.
Qed.

(** The measured duration is the one field that can differ. *)
Lemma provided_strategy_deterministic_witness :
  exists r1 r2,
    analysis_output r1 = analysis_output r2 /\
    ArticleAnalysisResult.analysis_time r1 = 200 /\
    ArticleAnalysisResult.analysis_time r2 = 207.
Proof.
  pose (raw := RawArticleData.mk "u" (mock_content "u") 100).
  pose (L2 := mkLateness (fun _ => 0) (fun _ => 3) (fun _ => 7)).
  pose (d1 := snd (process_article
                     (SummarizeCategorizeStrategy on_time demo_config)
                     0 raw 0 100 (pools demo_world))).
  pose (d2 := snd (process_article
                     (SummarizeCategorizeStrategy L2 demo_config)
                     5 raw 0 900 (pools demo_world))).
  destruct (result d1) as [r1|] eqn:H1; [|discriminate H1].
  destruct (result d2) as [r2|] eqn:H2; [|discriminate H2].
  exists r1, r2.
  destruct (provided_strategy_deterministic _ _ _ _ _ _ _ _ _ _ _ _ _ _ H1 H2)
    as (Hu & Hs & Hc & He).
  unfold analysis_output. rewrite Hu, Hs, Hc, He.
  split; [reflexivity|].
  inversion H1; inversion H2; split; reflexivity.
Defined.

(* ===================================================================== *)
(** ** [research] with the provided collaborators *)
(* ===================================================================== *)

Lemma research_provided_Return L L' cfg mgr urls w w' report :
  research L (NewsArticleAgent_init cfg mgr (SummarizeCategorizeStrategy L'))
    urls w = (w', Return report) ->
  exists raws,
    Forall2 (fun u raw => RawArticleData.url raw = u /\
                          RawArticleData.content raw = mock_content u)
      urls raws /\
    Forall2 analysis_of raws (NewsAgentReport.results report) /\
    NewsAgentReport.total_articles_processed report = Z.of_nat (length urls) /\
    NewsAgentReport.total_time_taken report = clock w' - clock w.
Proof.
  unfold research. intros H.
  apply research_with_Return in H.
  destruct H as (w1 & raws & tasks & results & Hg1 & Hb & Hg2 & ->).
  exists raws.
  cbn [NewsAgentReport.results NewsAgentReport.total_articles_processed
       NewsAgentReport.total_time_taken].
  apply gather_Return in Hg1. destruct Hg1 as (Hff1 & -> & _).
  apply gather_Return in Hg2. destruct Hg2 as (Hff2 & -> & _).
  repeat split; try reflexivity.
  - eapply Forall2_values; [| |exact Hff1].
    2:{ apply (run_all_Forall2
                 (fun u d => forall raw, result d = Return raw ->
                    RawArticleData.url raw = u /\
                    RawArticleData.content raw = mock_content u)).
        intros i u now ps raw. unfold mock_fetch. simpl.
        intros Hr; inversion Hr; subst. simpl. auto. }
    intros u d raw HQ Hr. apply HQ, Hr.
  - rewrite build_process_tasks_eq in Hb.
    set (raws := values _) in *. clearbody raws.
    destruct raws as [|raw raws].
    + inversion Hb; subst. constructor.
    + destruct (executor _ w1) as [ex|e]; cbn [bind] in Hb; [|discriminate].
      injection Hb as <-.
      eapply Forall2_values; [| |exact Hff2].
      2:{ apply (run_all_Forall2
                   (fun raw d => forall r, result d = Return r ->
                                           analysis_of raw r)
                   (raw :: raws)
                   (fun j raw =>
                      process_article
                        (strategy (NewsArticleAgent_init cfg mgr
                                     (SummarizeCategorizeStrategy L')))
                        (0 + j) raw ex)).
          intros i x now ps r.
          apply (process_article_Return L' cfg (0 + i) x ex now ps r). }
      intros x d r HQ Hr. apply HQ, Hr.
Qed.

(** C1.  When [research] returns a report, the count it carries is the
    number of results and the number of urls, and the result at every
    position is the one of the url at that position; this holds for every
    lateness of the tasks, hence for every order in which they finish. *)
Theorem research_results_aligned L L' cfg mgr urls w w' report :
  research L (NewsArticleAgent_init cfg mgr (SummarizeCategorizeStrategy L'))
    urls w = (w', Return report) ->
  NewsAgentReport.total_articles_processed report =
    Z.of_nat (length (NewsAgentReport.results report)) /\
  length (NewsAgentReport.results report) = length urls /\
  forall i,
    ArticleAnalysisResult.url <$> (NewsAgentReport.results report !! i)
    = urls !! i.
Proof.
  intros H. apply research_provided_Return in H.
  destruct H as (raws & Hfetch & Hproc & Hcount & _).
  assert (Hal : Forall2 (fun u r => ArticleAnalysisResult.url r = u)
                  urls (NewsAgentReport.results report)).
  { eapply Forall2_trans; [|exact Hfetch|exact Hproc].
    intros u raw r [Hu _] (Hr & _). congruence. }
  pose proof (Forall2_length _ _ _ Hal) as Hlen.
  split; [rewrite Hcount; f_equal; exact Hlen|].
  split; [symmetry; exact Hlen|].
  intros i. clear Hcount Hlen Hfetch Hproc. revert i.
  induction Hal as [|u r urls' rs Hur _ IH]; intros [|i]; simpl;
    try reflexivity.
  - now rewrite Hur.
  - apply IH.
Qed.

(** C9.  The content the mock fetch produces contains the marker for
    every url, so every result of a report of [research] is in category
    ["Technology"] and none is in ["General"]. *)
Theorem research_always_technology L L' cfg mgr urls w w' report :
  research L (NewsArticleAgent_init cfg mgr (SummarizeCategorizeStrategy L'))
    urls w = (w', Return report) ->
  (forall url, contains "AI engineering" (mock_content url) = true) /\
  Forall (fun r => ArticleAnalysisResult.category r = "Technology"%string /\
                   ArticleAnalysisResult.category r <> "General"%string)
    (NewsAgentReport.results report).
Proof.
  intros H. split; [exact mock_content_has_marker|].
  apply research_provided_Return in H.
  destruct H as (raws & Hfetch & Hproc & _).
  revert Hproc. generalize (NewsAgentReport.results report) as rs.
  induction Hfetch as [|u raw urls' raws' [_ Hc] _ IH]; intros rs Hproc;
    inversion Hproc as [|? r ? rs' Hr Hrest]; subst; constructor.
  - destruct Hr as (_ & _ & Hcat & _).
    rewrite Hc, mock_content_has_marker in Hcat. rewrite Hcat.
    split; [reflexivity | discriminate].
  - apply IH, Hrest.
Qed.

Lemma research_results_aligned_witness :
  exists w' report,
    research on_time demo_agent demo_urls demo_world = (w', Return report) /\
    NewsAgentReport.total_articles_processed report = 4 /\
    length (NewsAgentReport.results report) = 4%nat /\
    ArticleAnalysisResult.url <$> (NewsAgentReport.results report !! 2%nat)
    = Some "http://mock.test/article3"%string.
Proof.
  destruct (research on_time demo_agent demo_urls demo_world)
    as [w' [report|e]] eqn:H; [|vm_compute in H; discriminate H].
  exists w', report. split; [reflexivity|].
  destruct (research_results_aligned on_time on_time demo_config 0%nat
              demo_urls demo_world w' report H) as (Hn & Hlen & Hi).
  rewrite Hn, Hlen, Hi. repeat split; reflexivity.
Defined.

Lemma research_always_technology_witness :
  exists w' report,
    research on_time demo_agent demo_urls demo_world = (w', Return report) /\
    Forall (fun r => ArticleAnalysisResult.category r = "Technology"%string /\
                     ArticleAnalysisResult.category r <> "General"%string)
      (NewsAgentReport.results report).
Proof.
  destruct (research on_time demo_agent demo_urls demo_world)
    as [w' [report|e]] eqn:H; [|vm_compute in H; discriminate H].
  exists w', report. split; [reflexivity|].
  apply (research_always_technology on_time on_time demo_config 0%nat
           demo_urls demo_world w' report H).
Defined.

(* ===================================================================== *)
(** ** The report and the configuration *)
(* ===================================================================== *)

(** C10.  The call that builds the report passes [total_duration], which
    is no field of the model; whenever both phases have succeeded the
    construction succeeds, [research] returns the report, and the report
    carries the three declared fields and nothing else, with the measured
    duration in [total_time_taken]. *)
Theorem research_report_extra_keyword fetch self urls w w1 raws tasks w2 rs :
  gather (imap (fun i url =>
                  fetch i url
                    (AgentConfig.mock_fetch_delay (agent_config self)))
               urls) w = (w1, Return raws) ->
  build_process_tasks self w1 0 raws = Return tasks ->
  gather tasks w1 = (w2, Return rs) ->
  exists report,
    research_with fetch self urls w = (w2, Return report) /\
    kw_get "total_duration" (report_kwargs rs urls (clock w2 - clock w))
      = Some (PyFloat (clock w2 - clock w)) /\
    ~ In "total_duration"%string NewsAgentReport.model_fields /\
    NewsAgentReport.new (report_kwargs rs urls (clock w2 - clock w))
      = Return report /\
    map fst (NewsAgentReport.model_dump report)
      = ["results"; "total_articles_processed"; "total_time_taken"]%string /\
    kw_get "total_duration" (NewsAgentReport.model_dump report) = None /\
    NewsAgentReport.results report = rs /\
    NewsAgentReport.total_articles_processed report
      = Z.of_nat (length urls) /\
    NewsAgentReport.total_time_taken report = clock w2 - clock w.
Proof.
  intros Hg1 Hb Hg2.
  exists (NewsAgentReport.mk rs (Z.of_nat (length urls)) (clock w2 - clock w)).
  split; [eapply research_with_gathered; eassumption|].
  split; [reflexivity|].
  split.
  { simpl. intros [H|[H|[H|[]]]]; discriminate H. }
  repeat split; reflexivity.
Qed.

Lemma research_report_extra_keyword_witness :
  exists report,
    snd (research_with (mock_fetch on_time) demo_agent demo_urls demo_world)
      = Return report /\
    map fst (NewsAgentReport.model_dump report)
      = NewsAgentReport.model_fields /\
    NewsAgentReport.total_time_taken report = 500.
Proof.
  destruct (gather (imap (fun i url =>
                            mock_fetch on_time i url
                              (AgentConfig.mock_fetch_delay
                                 (agent_config demo_agent)))
                         demo_urls) demo_world)
    as [w1 [raws|e]] eqn:Hg1; [|vm_compute in Hg1; discriminate Hg1].
  destruct (build_process_tasks demo_agent w1 0 raws)
    as [tasks|e] eqn:Hb.
  2:{ injection Hg1 as <- <-. vm_compute in Hb. discriminate Hb. }
  destruct (gather tasks w1) as [w2 [rs|e]] eqn:Hg2.
  2:{ injection Hg1 as <- <-. injection Hb as <-.
      vm_compute in Hg2. discriminate Hg2. }
  destruct (research_report_extra_keyword _ _ _ _ _ _ _ _ _ Hg1 Hb Hg2)
    as (report & Hres & _ & _ & _ & Hdump & _ & _ & _ & Htime).
  exists report. rewrite Hres, Hdump, Htime.
  injection Hg1 as <- <-. injection Hb as <-.
  vm_compute in Hg2. injection Hg2 as <- <-.
  repeat split; reflexivity.
Defined.

(** [research] reads its agent through three things only. *)
Lemma research_with_ext fetch s1 s2 urls w :
  AgentConfig.mock_fetch_delay (agent_config s1)
    = AgentConfig.mock_fetch_delay (agent_config s2) ->
  executor_manager s1 = executor_manager s2 ->
  (forall i raw ex,
     process_article (strategy s1) i raw ex
     = process_article (strategy s2) i raw ex) ->
  research_with fetch s1 urls w = research_with fetch s2 urls w.
Proof.
  intros Hd Hm Hp. unfold research_with. rewrite Hd.
  destruct (gather _ w) as [w1 [raws|e]]; [|reflexivity].
  assert (Hb : build_process_tasks s1 w1 0 raws
               = build_process_tasks s2 w1 0 raws).
  { rewrite !build_process_tasks_eq, Hm.
    destruct raws as [|raw raws]; [reflexivity|].
    destruct (executor _ w1) as [ex|e]; [|reflexivity].
    cbn [bind]. f_equal. apply imap_ext. intros j y _. apply Hp. }
  rewrite Hb. reflexivity.
Qed.

(** C7.  Two configurations that differ in [api_timeout] only give the
    same run of [research]: the same store afterwards and the same
    outcome, report or exception, whatever the timeout values are. *)
Theorem api_timeout_not_enforced L L' c1 c2 mgr urls w :
  AgentConfig.max_cpu_workers c1 = AgentConfig.max_cpu_workers c2 ->
  AgentConfig.mock_fetch_delay c1 = AgentConfig.mock_fetch_delay c2 ->
  AgentConfig.mock_analysis_time c1 = AgentConfig.mock_analysis_time c2 ->
  research L (NewsArticleAgent_init c1 mgr (SummarizeCategorizeStrategy L'))
    urls w
  = research L (NewsArticleAgent_init c2 mgr (SummarizeCategorizeStrategy L'))
      urls w.
Proof.
  intros _ Hd Ht. unfold research. apply research_with_ext.
  - exact Hd.
  - reflexivity.
  - intros i raw ex. simpl. rewrite Ht. reflexivity.
Qed.

(** A timeout of zero, far below the fetch delay, changes nothing. *)
Lemma api_timeout_not_enforced_witness :
  research on_time
    (NewsArticleAgent_init (AgentConfig.mk 2 100 200 0) 0
       (SummarizeCategorizeStrategy on_time)) demo_urls demo_world
  = research on_time demo_agent demo_urls demo_world /\
  is_return (snd (research on_time demo_agent demo_urls demo_world)) = true.
Proof.
  split.
  - apply (api_timeout_not_enforced on_time on_time
             (AgentConfig.mk 2 100 200 0) demo_config 0%nat
             demo_urls demo_world); reflexivity.
  - reflexivity.
Defined.

(* ===================================================================== *)
(** ** The life cycle of the pool *)
(* ===================================================================== *)

Lemma new_pool_wf n now p :
  ProcessPoolExecutor.new n now = Return p ->
  pool_wf p /\ ProcessPoolExecutor.max_workers p = n /\
  ProcessPoolExecutor.shut_down p = false.
Proof.
  unfold ProcessPoolExecutor.new, pool_wf.
  destruct (Z.leb_spec n 0) as [Hle|Hgt]; [discriminate|].
  intros H; inversion H; subst; clear H. simpl.
  rewrite length_replicate. auto.
Qed.

(** The claim C6 names an error the code does not have: entering a
    manager built with zero workers raises the [ValueError] of the
    standard library's constructor. *)
Lemma aenter_zero_workers_not_PoolInitError :
  exists e,
    snd (__aenter__ 0 (fst (ExecutorManager_init 0 empty_world))) = Raise e /\
    e = ValueError "max_workers must be greater than 0" /\
    exc_type e <> "PoolInitError"%string.
Proof.
  eexists. split; [reflexivity|]. split; [reflexivity|]. discriminate.
Qed.

(** C6, as the code has it.  Entering a manager whose worker count is not
    positive fails with the [ValueError] of the pool constructor and
    leaves the store as it was; entering one whose count is positive
    succeeds and leaves the manager with a fresh open pool of exactly
    that many workers. *)
Theorem aenter_worker_count w self m :
  managers w !! self = Some m ->
  (_max_workers m <= 0 ->
   __aenter__ self w
   = (w, Raise (ValueError "max_workers must be greater than 0"))) /\
  (0 < _max_workers m ->
   exists r p,
     snd (__aenter__ self w) = Return self /\
     executor self (fst (__aenter__ self w)) = Return r /\
     pools (fst (__aenter__ self w)) !! r = Some p /\
     pools w !! r = None /\
     ProcessPoolExecutor.max_workers p = _max_workers m /\
     length (ProcessPoolExecutor.idle_at p) = Z.to_nat (_max_workers m) /\
     ProcessPoolExecutor.shut_down p = false).
Proof.
  intros Hm. unfold __aenter__. rewrite Hm.
  unfold ProcessPoolExecutor.new. split; intros Hn.
  - destruct (Z.leb_spec (_max_workers m) 0); [reflexivity|lia].
  - destruct (Z.leb_spec (_max_workers m) 0); [lia|].
    eexists (length (pools w)), _. simpl.
    split; [reflexivity|].
    split.
    { unfold executor. simpl.
      rewrite list_lookup_insert_eq by (eapply lookup_lt_Some; eassumption).
      reflexivity. }
    split.
    { rewrite lookup_app_r by lia. rewrite Nat.sub_diag. reflexivity. }
    split; [apply lookup_ge_None; lia|].
    simpl. rewrite length_replicate. auto.
Qed.

Lemma aenter_worker_count_witness :
  exists r p,
    executor 0 demo_world = Return r /\
    pools demo_world !! r = Some p /\
    ProcessPoolExecutor.max_workers p = 2 /\
    length (ProcessPoolExecutor.idle_at p) = 2%nat.
Proof.
  destruct (aenter_worker_count
              (fst (ExecutorManager_init 2 empty_world)) 0
              (mkExecutorManager 2 None) eq_refl) as [_ Hpos].
  destruct Hpos as (r & p & _ & Hex & Hp & _ & Hw & Hlen & _);
    [simpl; lia|].
  exists r, p. repeat split; assumption.
Defined.

Lemma aexit_open w self m r p :
  managers w !! self = Some m -> _executor m = Some r ->
  pools w !! r = Some p ->
  __aexit__ self w
  = (mkWorld (ProcessPoolExecutor.drained_at p (clock w))
       (<[self := mkExecutorManager (_max_workers m) None]> (managers w))
       (<[r := ProcessPoolExecutor.shutdown p]> (pools w)),
     Return tt).
Proof.
  intros Hm Hex Hp. unfold __aexit__. rewrite Hm, Hex, Hp. reflexivity.
Qed.

Lemma aexit_closed w self m :
  managers w !! self = Some m -> _executor m = None ->
  __aexit__ self w = (w, Return tt).
Proof.
  intros Hm Hex. unfold __aexit__. rewrite Hm, Hex. reflexivity.
Qed.

(** The claim C5 names an error the code does not have: after the exit
    the manager's property and the closed pool both refuse with a
    [RuntimeError]. *)
Lemma submit_after_close_not_PoolClosedError :
  let w' := fst (__aexit__ 0 demo_world) in
  (exists e, executor 0 w' = Raise e /\
             exc_type e = "RuntimeError"%string /\
             exc_type e <> "PoolClosedError"%string) /\
  (exists e, result (snd (run_cpu_task_in_executor 0 0
                            (cpu_mock_analyze_article_text
                               (RawArticleData.mk "u" "c" 0) 200 0)
                            (clock w') (pools w'))) = Raise e /\
             exc_type e = "RuntimeError"%string /\
             exc_type e <> "PoolClosedError"%string).
Proof.
  split; eexists; (split; [reflexivity|]); split;
    [reflexivity|discriminate|reflexivity|discriminate].
Qed.

(** C5, as the code has it.  After the exit of a manager, reading its
    [executor] property raises [RuntimeError], and so does handing a call
    to the pool it held, for whoever kept a reference to it; the exit
    itself never raises, whether or not a pool was open or any work was
    submitted, and a second exit changes nothing. *)
Theorem aexit_closes_pool {A} w self m :
  managers w !! self = Some m ->
  (forall r, _executor m = Some r -> is_Some (pools w !! r)) ->
  snd (__aexit__ self w) = Return tt /\
  executor self (fst (__aexit__ self w))
  = Raise (RuntimeError
      "Executor not initialized. Use ExecutorManager as an async context manager.") /\
  (forall r late (call : seconds -> Done A) now,
     _executor m = Some r ->
     run_cpu_task_in_executor r late call now (pools (fst (__aexit__ self w)))
     = (pools (fst (__aexit__ self w)),
        mkDone now
          (Raise (RuntimeError "cannot schedule new futures after shutdown"))))
  /\
  __aexit__ self (fst (__aexit__ self w))
  = (fst (__aexit__ self w), Return tt).
Proof.
  intros Hm Hwf.
  destruct (_executor m) as [r|] eqn:Hex.
  - destruct (Hwf r eq_refl) as [p Hp].
    pose proof (lookup_lt_Some _ _ _ Hm) as Hlt.
    pose proof (lookup_lt_Some _ _ _ Hp) as Hltp.
    rewrite (aexit_open w self m r p Hm Hex Hp). cbn [fst snd].
    split; [reflexivity|].
    split.
    { unfold executor. cbn [managers].
      rewrite list_lookup_insert_eq by exact Hlt. reflexivity. }
    split.
    { intros r' late call now Hr'. injection Hr' as <-.
      unfold run_cpu_task_in_executor. cbn [pools].
      rewrite list_lookup_insert_eq by exact Hltp. reflexivity. }
    apply (aexit_closed _ self (mkExecutorManager (_max_workers m) None));
      [|reflexivity].
    cbn [managers]. apply list_lookup_insert_eq, Hlt.
  - rewrite (aexit_closed w self m Hm Hex). cbn [fst snd].
    split; [reflexivity|].
    split; [unfold executor; rewrite Hm, Hex; reflexivity|].
    split; [intros; discriminate|].
    apply (aexit_closed w self m Hm Hex).
Qed.

Lemma aexit_closes_pool_witness :
  snd (__aexit__ 0 demo_world) = Return tt /\
  __aexit__ 0 (fst (__aexit__ 0 demo_world))
  = (fst (__aexit__ 0 demo_world), Return tt) /\
  snd (__aexit__ 0 (fst (ExecutorManager_init 2 empty_world))) = Return tt.
Proof.
  destruct (@aexit_closes_pool ArticleAnalysisResult.t demo_world 0
              (mkExecutorManager 2 (Some 0%nat)) eq_refl)
    as (Hret & _ & _ & Hagain).
  { intros r Hr. injection Hr as <-. eexists. reflexivity. }
  destruct (@aexit_closes_pool ArticleAnalysisResult.t
              (fst (ExecutorManager_init 2 empty_world)) 0
              (mkExecutorManager 2 None) eq_refl)
    as (Hnever & _).
  { intros r Hr. discriminate Hr. }
  repeat split; assumption.
Defined.

(* ===================================================================== *)
(** ** Failures *)
(* ===================================================================== *)

Lemma gather_first_failure {A} (cs : list (Coroutine A)) w t e :
  first_failure (snd (run_all cs (clock w) (pools w))) = Some (t, e) ->
  snd (gather cs w) = Raise e.
Proof.
  unfold gather. destruct (run_all cs (clock w) (pools w)) as [ps ds].
  simpl. intros ->. reflexivity.
Qed.

(** A batch in which some task raised: [gather] raises the exception of
    the task that failed first. *)
Lemma gather_raises_first {A} (cs : list (Coroutine A)) w i d e0 :
  snd (run_all cs (clock w) (pools w)) !! i = Some d ->
  result d = Raise e0 ->
  exists j d' e,
    snd (run_all cs (clock w) (pools w)) !! j = Some d' /\
    result d' = Raise e /\
    (forall k d'' e'',
       snd (run_all cs (clock w) (pools w)) !! k = Some d'' ->
       result d'' = Raise e'' -> finished_at d' <= finished_at d'') /\
    snd (gather cs w) = Raise e.
Proof.
  intros Hi Hr.
  destruct (first_failure_exists _ _ _ _ Hi Hr) as (t & e & Hff).
  destruct (first_failure_Some _ _ _ Hff) as (j & d' & Hj & Hrj & Ht & Hmin).
  exists j, d', e. repeat split; try assumption.
  - intros k d'' e'' Hk Hrk. rewrite Ht. eapply Hmin; eassumption.
  - eapply gather_first_failure, Hff.
Qed.

(** The claim C2 names errors the code does not have.  A negative
    analysis time makes the worker's [time.sleep] raise [ValueError], and
    [research] raises that very exception; a fetch collaborator that
    raises [ConnectionError] makes [research] raise that very exception.
    Neither is a [ProcessingError] or a [FetchError], nor wrapped in
    one. *)
Lemma research_failure_not_wrapped :
  (exists e,
     snd (research on_time
            (NewsArticleAgent_init negative_config 0
               (SummarizeCategorizeStrategy on_time))
            ["http://mock.test/article1"]%string demo_world) = Raise e /\
     e = ValueError "sleep length must be non-negative" /\
     exc_type e <> "ProcessingError"%string /\
     forall inner, ~ wraps "ProcessingError" inner e) /\
  (exists e,
     snd (research_with failing_fetch demo_agent
            ["http://mock.test/article1"]%string demo_world) = Raise e /\
     e = Exc "ConnectionError" "http://mock.test/article1" None /\
     exc_type e <> "FetchError"%string /\
     forall inner, ~ wraps "FetchError" inner e).
Proof.
  split; eexists; (split; [reflexivity|]); (split; [reflexivity|]);
    (split; [discriminate|]); intros inner [Ht _]; discriminate Ht.
Qed.

(** C2, as the code has it.  If a fetch raises, [research] raises the
    exception of the fetch that failed first, itself and unwrapped, and
    returns no report; if the fetches succeed and the [executor] property
    raises, [research] raises that exception; if then a processing task
    raises, [research] raises the exception of the task that failed
    first, itself and unwrapped.  Nothing is caught or run again, and the
    results of the tasks that succeeded are dropped. *)
Theorem research_propagates_first_failure fetch self urls w :
  (forall i d e0,
     snd (run_all (fetch_tasks_of fetch self urls) (clock w) (pools w)) !! i
       = Some d ->
     result d = Raise e0 ->
     exists j d' e,
       snd (run_all (fetch_tasks_of fetch self urls) (clock w) (pools w)) !! j
         = Some d' /\
       result d' = Raise e /\
       (forall k d'' e'',
          snd (run_all (fetch_tasks_of fetch self urls) (clock w) (pools w))
            !! k = Some d'' ->
          result d'' = Raise e'' -> finished_at d' <= finished_at d'') /\
       snd (research_with fetch self urls w) = Raise e) /\
  (forall w1 raws e,
     gather (fetch_tasks_of fetch self urls) w = (w1, Return raws) ->
     build_process_tasks self w1 0 raws = Raise e ->
     snd (research_with fetch self urls w) = Raise e) /\
  (forall w1 raws tasks i d e0,
     gather (fetch_tasks_of fetch self urls) w = (w1, Return raws) ->
     build_process_tasks self w1 0 raws = Return tasks ->
     snd (run_all tasks (clock w1) (pools w1)) !! i = Some d ->
     result d = Raise e0 ->
     exists j d' e,
       snd (run_all tasks (clock w1) (pools w1)) !! j = Some d' /\
       result d' = Raise e /\
       (forall k d'' e'',
          snd (run_all tasks (clock w1) (pools w1)) !! k = Some d'' ->
          result d'' = Raise e'' -> finished_at d' <= finished_at d'') /\
       snd (research_with fetch self urls w) = Raise e).
Proof.
  split; [|split].
  - intros i d e0 Hi Hr.
    destruct (gather_raises_first _ _ _ _ _ Hi Hr)
      as (j & d' & e & Hj & Hrj & Hmin & Hg).
    exists j, d', e. repeat split; try assumption.
    unfold research_with. fold (fetch_tasks_of fetch self urls).
    destruct (gather (fetch_tasks_of fetch self urls) w) as [w1 [raws|e1]];
      simpl in Hg; [discriminate|]. injection Hg as ->. reflexivity.
  - intros w1 raws e Hg1 Hb.
    unfold research_with. fold (fetch_tasks_of fetch self urls).
    rewrite Hg1, Hb. reflexivity.
  - intros w1 raws tasks i d e0 Hg1 Hb Hi Hr.
    destruct (gather_raises_first _ _ _ _ _ Hi Hr)
      as (j & d' & e & Hj & Hrj & Hmin & Hg).
    exists j, d', e. repeat split; try assumption.
    unfold research_with. fold (fetch_tasks_of fetch self urls).
    rewrite Hg1, Hb.
    destruct (gather tasks w1) as [w2 [rs|e2]];
      simpl in Hg; [discriminate|]. injection Hg as ->. reflexivity.
Qed.

Lemma research_propagates_first_failure_witness :
  exists e,
    snd (research_with failing_fetch demo_agent demo_urls demo_world)
    = Raise e.
Proof.
  destruct (research_propagates_first_failure failing_fetch demo_agent
              demo_urls demo_world) as [Hfetch _].
  destruct (Hfetch 0%nat
              (mkDone 100
                 (Raise (Exc "ConnectionError" "http://mock.test/article1"
                           None)))
              (Exc "ConnectionError" "http://mock.test/article1" None)
              eq_refl eq_refl)
    as (j & d' & e & _ & _ & _ & Hres).
  exists e. exact Hres.
Defined.

(* ===================================================================== *)
(** ** Timing *)
(* ===================================================================== *)

Lemma latest_ge {A} now (ds : list (Done A)) :
  now <= latest now ds /\
  forall d, d ∈ ds -> finished_at d <= latest now ds.
Proof.
  unfold latest. induction ds as [|x ds [IH1 IH2]]; simpl.
  - split; [lia|]. intros d Hd. inversion Hd.
  - split; [lia|]. intros d Hd. apply elem_of_cons in Hd as [->|Hd].
    + lia.
    + specialize (IH2 d Hd). lia.
Qed.

Lemma earliest_from_bound idle :
  forall i best_i best,
    (best_i < i)%nat ->
    (ProcessPoolExecutor.earliest_from i best_i best idle
     < i + length idle)%nat.
Proof.
  induction idle as [|x idle IH]; intros i best_i best Hlt; simpl; [lia|].
  destruct (x <? best).
  - specialize (IH (S i) i x). lia.
  - specialize (IH (S i) best_i best). lia.
Qed.

Lemma earliest_lt idle :
  idle <> [] -> (ProcessPoolExecutor.earliest idle < length idle)%nat.
Proof.
  destruct idle as [|x idle]; [congruence|]. intros _. simpl.
  pose proof (earliest_from_bound idle 1 0 x). lia.
Qed.

Lemma sum_list_insert_S (cnt : list nat) :
  forall w c, cnt !! w = Some c ->
              sum_list (<[w := S c]> cnt) = S (sum_list cnt).
Proof.
  induction cnt as [|x cnt IH]; intros [|w] c H; simpl in *;
    try discriminate.
  - injection H as ->. reflexivity.
  - rewrite (IH w c H). lia.
Qed.

Lemma sum_list_le_max (l : list nat) :
  (sum_list l <= max_list l * length l)%nat.
Proof.
  induction l as [|x l IH]; simpl; [lia|]. nia.
Qed.

(** Some worker took at least its share of the calls. *)
Lemma pigeonhole (cnt : list nat) :
  cnt <> [] ->
  exists w c, cnt !! w = Some c /\ (sum_list cnt <= c * length cnt)%nat.
Proof.
  intros Hne. pose proof (max_list_elem_of cnt Hne) as Hin.
  apply list_elem_of_lookup in Hin as [w Hw].
  exists w, (max_list cnt). split; [exact Hw | apply sum_list_le_max].
Qed.

Lemma ceil_div_le n w c : 0 < w -> n <= c * w -> ceil_div n w <= c.
Proof.
  intros Hw Hn. unfold ceil_div.
  assert ((n + w - 1) / w < c + 1); [|lia].
  apply Z.div_lt_upper_bound; [exact Hw | nia].
Qed.

Lemma first_failure_cons_None {A} (d : Done A) ds :
  first_failure (d :: ds) = None ->
  (exists a, result d = Return a) /\ first_failure ds = None.
Proof.
  simpl. destruct (result d) as [a|e]; [eauto|].
  destruct (first_failure ds) as [[t' e']|]; [|discriminate].
  destruct (_ <=? _); discriminate.
Qed.

(** One batch of the provided strategy on one pool: the bookkeeping of
    [busy_inv] is kept, and every article adds one call. *)
Lemma pool_batch L' cfg ex now M (raws : list RawArticleData.t) :
  punctual L' ->
  forall (idx : nat -> nat) ps p cnt ps' ds,
    ps !! ex = Some p ->
    ProcessPoolExecutor.idle_at p <> [] ->
    run_all (imap (fun j raw =>
                     process_article (SummarizeCategorizeStrategy L' cfg)
                       (idx j) raw ex) raws) now ps = (ps', ds) ->
    first_failure ds = None ->
    (forall d, d ∈ ds -> finished_at d <= M) ->
    busy_inv now (AgentConfig.mock_analysis_time cfg) M
      (ProcessPoolExecutor.idle_at p) cnt ->
    exists p' cnt',
      ps' !! ex = Some p' /\
      busy_inv now (AgentConfig.mock_analysis_time cfg) M
        (ProcessPoolExecutor.idle_at p') cnt' /\
      sum_list cnt' = (sum_list cnt + length raws)%nat /\
      length (ProcessPoolExecutor.idle_at p')
        = length (ProcessPoolExecutor.idle_at p) /\
      (raws <> [] -> 0 <= AgentConfig.mock_analysis_time cfg <= sleep_max).
Proof.
  intros HL. induction raws as [|raw raws IH];
    intros idx ps p cnt ps' ds Hp Hne Hrun Hff HM Hinv.
  - simpl in Hrun. injection Hrun as <- <-.
    exists p, cnt. split; [exact Hp|]. split; [exact Hinv|].
    split; [simpl; lia|]. split; [reflexivity|congruence].
  - rewrite imap_cons in Hrun. cbn [run_all] in Hrun.
    cbn [process_article SummarizeCategorizeStrategy] in Hrun.
    destruct (run_cpu_task_in_executor ex (pool_late L' (idx 0%nat))
                (cpu_mock_analyze_article_text raw
                   (AgentConfig.mock_analysis_time cfg)
                   (cpu_late L' (idx 0%nat))) now ps)
      as [ps1 d] eqn:Hd.
    destruct (run_all _ now ps1) as [ps2 ds2] eqn:Hrest.
    injection Hrun as <- <-.
    apply first_failure_cons_None in Hff as [[a Ha] Hff2].
    destruct (run_cpu_task_Return _ _ _ _ _ _ _ _ Hd Ha)
      as (p0 & Hp0 & Hopen & Hcall & Hps1).
    rewrite Hp in Hp0. injection Hp0 as <-.
    set (wk := ProcessPoolExecutor.earliest (ProcessPoolExecutor.idle_at p))
      in *.
    pose proof (earliest_lt _ Hne) as Hwk. fold wk in Hwk.
    destruct (lookup_lt_is_Some_2 _ _ Hwk) as [f0 Hf0].
    destruct Hinv as [Hlen Hbusy].
    assert (Hwk' : (wk < length cnt)%nat) by lia.
    destruct (lookup_lt_is_Some_2 _ _ Hwk') as [c0 Hc0].
    rewrite Hf0 in Hcall. cbn [default] in Hcall.
    pose proof Ha as Hmock. rewrite Hcall in Hmock.
    apply cpu_mock_Return in Hmock as (_ & HP & _ & Hfin).
    rewrite <- Hcall in Hfin.
    destruct (HL (idx 0%nat)) as (_ & Hpl & Hcl).
    set (p1 := ProcessPoolExecutor.mk (ProcessPoolExecutor.max_workers p)
                 false
                 (<[wk := finished_at d]> (ProcessPoolExecutor.idle_at p)))
      in *.
    assert (Hp1 : ps1 !! ex = Some p1).
    { rewrite Hps1. apply list_lookup_insert_eq.
      eapply lookup_lt_Some, Hp. }
    destruct (IH (idx ∘ S) ps1 p1 (<[wk := S c0]> cnt) ps2 ds2 Hp1)
      as (p' & cnt' & Hp' & Hinv' & Hsum & Hlen' & _).
    + subst p1. cbn [ProcessPoolExecutor.idle_at].
      intros Hnil. apply (f_equal (@length _)) in Hnil.
      rewrite length_insert in Hnil. simpl in Hnil. lia.
    + exact Hrest.
    + exact Hff2.
    + intros d' Hd'. apply HM. apply elem_of_cons. right. exact Hd'.
    + subst p1. cbn [ProcessPoolExecutor.idle_at]. split.
      * rewrite !length_insert. exact Hlen.
      * intros w c f Hc Hf Hpos.
        destruct (decide (w = wk)) as [->|Hneq].
        -- rewrite list_lookup_insert_eq in Hc by exact Hwk'.
           rewrite list_lookup_insert_eq in Hf by exact Hwk.
           injection Hc as <-. injection Hf as <-.
           split; [|apply HM, elem_of_cons; left; reflexivity].
           rewrite Hfin. unfold id.
           destruct c0 as [|c0].
           ++ lia.
           ++ destruct (Hbusy wk (S c0) f0 Hc0 Hf0) as [Hlo _]; [lia|].
              lia.
        -- rewrite list_lookup_insert_ne in Hc by congruence.
           rewrite list_lookup_insert_ne in Hf by congruence.
           apply (Hbusy w c f Hc Hf Hpos).
    + exists p', cnt'. split; [exact Hp'|]. split; [exact Hinv'|].
      split.
      { rewrite Hsum, (sum_list_insert_S cnt wk c0 Hc0). simpl. lia. }
      split.
      { rewrite Hlen'. subst p1. cbn [ProcessPoolExecutor.idle_at].
        apply length_insert. }
      intros _. exact HP.
Qed.

(** The fetch phase of a non-empty batch lasts the fetch delay at
    least, and leaves the pools and the managers alone. *)
Lemma fetch_phase L self urls w w1 raws :
  punctual L -> urls <> [] ->
  gather (fetch_tasks_of (mock_fetch L) self urls) w = (w1, Return raws) ->
  clock w + AgentConfig.mock_fetch_delay (agent_config self) <= clock w1 /\
  pools w1 = pools w /\ managers w1 = managers w /\
  length raws = length urls.
Proof.
  intros HL Hne Hg.
  apply gather_Return in Hg as (_ & _ & Hclock & Hpools & Hmgr & Hlen).
  unfold fetch_tasks_of in *.
  rewrite (run_all_pure urls _
             (fun i u now =>
                mkDone
                  (asyncio_sleep
                     (AgentConfig.mock_fetch_delay (agent_config self))
                     now (loop_late L i))
                  (Return
                     (RawArticleData.mk u (mock_content u)
                        (asyncio_sleep
                           (AgentConfig.mock_fetch_delay (agent_config self))
                           now (loop_late L i) - now)))))
    in Hclock, Hpools by reflexivity.
  cbn [fst snd] in *. rewrite length_imap in Hlen.
  repeat split; try assumption.
  destruct urls as [|u urls]; [congruence|].
  rewrite imap_cons in Hclock.
  match type of Hclock with
  | _ = latest _ (?d :: ?ds) =>
      destruct (latest_ge (clock w) (d :: ds)) as [_ Hge];
      specialize (Hge d (list_elem_of_here _ _))
  end.
  rewrite <- Hclock in Hge. cbn [finished_at] in Hge.
  unfold asyncio_sleep in Hge. destruct (HL 0%nat) as (Hl & _). lia.
Qed.

(** C8.  With tasks that are never early, a report of [research] on [N]
    urls, [N > 0], through a pool of [W] workers, carries a duration of
    at least the fetch delay plus [ceil(N / W)] times the analysis time. *)
Theorem research_duration_lower_bound L L' cfg mgr urls w w' report r p :
  punctual L -> punctual L' -> urls <> [] ->
  executor mgr w = Return r -> pools w !! r = Some p -> pool_wf p ->
  research L (NewsArticleAgent_init cfg mgr (SummarizeCategorizeStrategy L'))
    urls w = (w', Return report) ->
  AgentConfig.mock_fetch_delay cfg +
  ceil_div (Z.of_nat (length urls)) (ProcessPoolExecutor.max_workers p) *
    AgentConfig.mock_analysis_time cfg
  <= NewsAgentReport.total_time_taken report.
Proof.
  intros HL HL' Hne Hex Hp [Hmw Hwidth] H. unfold research in H.
  apply research_with_Return in H
    as (w1 & raws & tasks & results & Hg1 & Hb & Hg2 & ->).
  cbn [NewsAgentReport.total_time_taken].
  apply (fetch_phase L _ urls w w1 raws HL Hne) in Hg1
    as (Hfetch & Hpools1 & Hmgr1 & Hlen1).
  cbn [agent_config NewsArticleAgent_init] in Hfetch.
  rewrite build_process_tasks_eq in Hb.
  destruct raws as [|raw raws].
  { destruct urls; [congruence|discriminate Hlen1]. }
  assert (Hex1 : executor mgr w1 = Return r).
  { unfold executor in *. rewrite Hmgr1. exact Hex. }
  cbn [executor_manager NewsArticleAgent_init] in Hb.
  rewrite Hex1 in Hb. cbn [bind strategy NewsArticleAgent_init] in Hb.
  injection Hb as <-.
  apply gather_Return in Hg2 as (Hff2 & _ & Hclock2 & _).
  destruct (run_all _ (clock w1) (pools w1)) as [ps' ds] eqn:Hrun2.
  cbn [fst snd] in *.
  assert (Hidle : ProcessPoolExecutor.idle_at p <> []).
  { intros Hnil. rewrite Hnil in Hwidth. simpl in Hwidth. lia. }
  destruct (pool_batch L' cfg r (clock w1) (latest (clock w1) ds)
              (raw :: raws) HL' (fun j => (0 + j)%nat) (pools w1) p
              (replicate (length (ProcessPoolExecutor.idle_at p)) 0%nat)
              ps' ds)
    as (p' & cnt' & _ & [Hlenc Hbusy] & Hsum & Hlenp & HP).
  - rewrite Hpools1. exact Hp.
  - exact Hidle.
  - exact Hrun2.
  - exact Hff2.
  - apply latest_ge.
  - split; [apply length_replicate|].
    intros wk c f Hc _ Hpos. apply lookup_replicate in Hc as [-> _]. lia.
  - rewrite sum_list_replicate, Nat.mul_0_r, Nat.add_0_l in Hsum.
    specialize (HP ltac:(discriminate)).
    assert (Hcne : cnt' <> []).
    { intros Hnil. rewrite Hnil in Hlenc. simpl in Hlenc.
      destruct (ProcessPoolExecutor.idle_at p); [congruence|].
      rewrite Hlenp in Hlenc. discriminate Hlenc. }
    destruct (pigeonhole cnt' Hcne) as (wk & c & Hc & Hshare).
    assert (Hwk : (wk < length (ProcessPoolExecutor.idle_at p'))%nat).
    { rewrite <- Hlenc. eapply lookup_lt_Some, Hc. }
    destruct (lookup_lt_is_Some_2 _ _ Hwk) as [f Hf].
    rewrite Hsum, Hlenc, Hlenp, Hwidth in Hshare.
    assert (Hcpos : (0 < c)%nat).
    { destruct c; [simpl in Hshare; simpl in *; lia|lia]. }
    destruct (Hbusy wk c f Hc Hf Hcpos) as [Hlo Hhi].
    assert (Hceil : ceil_div (Z.of_nat (length urls))
                      (ProcessPoolExecutor.max_workers p) <= Z.of_nat c).
    { apply ceil_div_le; [exact Hmw|].
      rewrite <- Hlen1.
      rewrite <- (Z2Nat.id (ProcessPoolExecutor.max_workers p)) by lia.
      rewrite <- Nat2Z.inj_mul. apply Nat2Z.inj_le. exact Hshare. }
    rewrite Hclock2. nia.
Qed.

Lemma research_duration_lower_bound_witness :
  exists w' report,
    research on_time demo_agent demo_urls demo_world = (w', Return report) /\
    100 + ceil_div 4 2 * 200 <= NewsAgentReport.total_time_taken report.
Proof.
  destruct (research on_time demo_agent demo_urls demo_world)
    as [w' [report|e]] eqn:H; [|vm_compute in H; discriminate H].
  exists w', report. split; [reflexivity|].
  apply (research_duration_lower_bound on_time on_time demo_config 0%nat
           demo_urls demo_world w' report 0%nat
           (ProcessPoolExecutor.mk 2 false [0; 0])).
  - intros i. simpl. lia.
  - intros i. simpl. lia.
  - discriminate.
  - reflexivity.
  - reflexivity.
  - split; [simpl; lia|reflexivity].
  - exact H.
Defined.


(* ===================================================================== *)
(** ** More on [research]: when it returns, what it returns, what it
       leaves behind *)
(* ===================================================================== *)

(** A batch of fetches of the module's collaborator: all return, the
    articles are the urls with their mock content. *)
Lemma fetch_batch_values {B} (l : list B) :
  forall (t : nat -> B -> seconds) (v : nat -> B -> RawArticleData.t),
    first_failure (imap (fun i b => mkDone (t i b) (Return (v i b))) l) = None /\
    values (imap (fun i b => mkDone (t i b) (Return (v i b))) l) = imap v l.
Proof.
  induction l as [|b l IH]; intros t v; simpl; [auto|].
  destruct (IH (t ∘ S) (v ∘ S)) as [IH1 IH2].
  split; [exact IH1 | f_equal; exact IH2].
Qed.

Lemma fetch_gather L self urls w :
  gather (fetch_tasks_of (mock_fetch L) self urls) w
  = (mkWorld
       (latest (clock w)
          (imap (fun i u =>
                   mkDone
                     (asyncio_sleep
                        (AgentConfig.mock_fetch_delay (agent_config self))
                        (clock w) (loop_late L i))
                     (Return
                        (RawArticleData.mk u (mock_content u)
                           (asyncio_sleep
                              (AgentConfig.mock_fetch_delay
                                 (agent_config self))
                              (clock w) (loop_late L i) - clock w))))
                urls))
       (managers w) (pools w),
     Return
       (imap (fun i u =>
                RawArticleData.mk u (mock_content u)
                  (asyncio_sleep
                     (AgentConfig.mock_fetch_delay (agent_config self))
                     (clock w) (loop_late L i) - clock w))
             urls)).
Proof.
  unfold gather, fetch_tasks_of.
  rewrite (run_all_pure urls _
             (fun i u now =>
                mkDone
                  (asyncio_sleep
                     (AgentConfig.mock_fetch_delay (agent_config self))
                     now (loop_late L i))
                  (Return
                     (RawArticleData.mk u (mock_content u)
                        (asyncio_sleep
                           (AgentConfig.mock_fetch_delay (agent_config self))
                           now (loop_late L i) - now)))))
    by reflexivity.
  destruct (fetch_batch_values urls
              (fun i u =>
                 asyncio_sleep
                   (AgentConfig.mock_fetch_delay (agent_config self))
                   (clock w) (loop_late L i))
              (fun i u =>
                 RawArticleData.mk u (mock_content u)
                   (asyncio_sleep
                      (AgentConfig.mock_fetch_delay (agent_config self))
                      (clock w) (loop_late L i) - clock w)))
    as [Hff Hv].
  rewrite Hff, Hv. reflexivity.
Qed.

(** One task of the provided strategy changes the pool it is given, and
    of that pool only the times of the workers. *)
Lemma run_cpu_task_store {A} ex late (call : seconds -> Done A) now ps ps' d :
  run_cpu_task_in_executor ex late call now ps = (ps', d) ->
  map pool_shape ps' = map pool_shape ps /\
  forall r, r <> ex -> ps' !! r = ps !! r.
Proof.
  unfold run_cpu_task_in_executor, ProcessPoolExecutor.submit.
  destruct (ps !! ex) as [p|] eqn:Hp.
  - destruct (ProcessPoolExecutor.shut_down p) eqn:Hs;
      intros H; injection H as <- <-; [auto|].
    split.
    + change (map pool_shape) with (fmap (M:=list) pool_shape).
      rewrite list_fmap_insert. apply list_insert_id.
      rewrite list_lookup_fmap, Hp. simpl. unfold pool_shape. simpl.
      rewrite Hs, length_insert. reflexivity.
    + intros r Hr. apply list_lookup_insert_ne. congruence.
  - intros H; injection H as <- <-. auto.
Qed.

Lemma process_batch_store (strat : nat -> RawArticleData.t ->
                                   Coroutine ArticleAnalysisResult.t)
    ex (raws : list RawArticleData.t) :
  (forall i raw now ps ps' d,
     strat i raw now ps = (ps', d) ->
     map pool_shape ps' = map pool_shape ps /\
     forall r, r <> ex -> ps' !! r = ps !! r) ->
  forall (idx : nat -> nat) now ps ps' ds,
    run_all (imap (fun j raw => strat (idx j) raw) raws) now ps = (ps', ds) ->
    map pool_shape ps' = map pool_shape ps /\
    forall r, r <> ex -> ps' !! r = ps !! r.
Proof.
  intros Hstrat. induction raws as [|raw raws IH];
    intros idx now ps ps' ds Hrun.
  - simpl in Hrun. injection Hrun as <- <-. auto.
  - rewrite imap_cons in Hrun. cbn [run_all] in Hrun.
    destruct (strat (idx 0%nat) raw now ps) as [ps1 d] eqn:Hd.
    destruct (run_all _ now ps1) as [ps2 ds2] eqn:Hrest.
    injection Hrun as <- <-.
    destruct (Hstrat _ _ _ _ _ _ Hd) as [Hs1 Ho1].
    destruct (IH (idx ∘ S) now ps1 ps2 ds2 Hrest) as [Hs2 Ho2].
    split; [congruence|]. intros r Hr. rewrite Ho2, Ho1; auto.
Qed.

(** A batch of the provided strategy on an open pool: every call is
    accepted; all return if [time.sleep] accepts the analysis time, all
    raise the exception of [time.sleep] if it does not. *)
Lemma batch_on_open_pool L' cfg ex now (raws : list RawArticleData.t) :
  forall (idx : nat -> nat) ps p,
    ps !! ex = Some p -> ProcessPoolExecutor.shut_down p = false ->
    exists p' ds,
      run_all (imap (fun j raw =>
                       process_article (SummarizeCategorizeStrategy L' cfg)
                         (idx j) raw ex) raws) now ps
      = (<[ex := p']> ps, ds) /\
      pool_shape p' = pool_shape p /\
      length ds = length raws /\
      (0 <= AgentConfig.mock_analysis_time cfg <= sleep_max ->
       first_failure ds = None) /\
      (forall e,
         (forall t late,
            time_sleep (AgentConfig.mock_analysis_time cfg) t late = Raise e) ->
         Forall (fun d => result d = Raise e) ds).
Proof.
  induction raws as [|raw raws IH]; intros idx ps p Hp Hs.
  - exists p, []. simpl. rewrite (list_insert_id _ _ _ Hp). auto.
  - rewrite imap_cons. cbn [run_all].
    cbn [process_article SummarizeCategorizeStrategy].
    unfold run_cpu_task_in_executor at 1.
    unfold ProcessPoolExecutor.submit. rewrite Hp, Hs.
    set (d := cpu_mock_analyze_article_text raw _ _ _).
    set (p1 := ProcessPoolExecutor.mk _ _ _).
    assert (Hp1 : <[ex := p1]> ps !! ex = Some p1).
    { apply list_lookup_insert_eq. eapply lookup_lt_Some, Hp. }
    destruct (IH (idx ∘ S) (<[ex := p1]> ps) p1 Hp1 eq_refl)
      as (p' & ds & Hrun & Hshape & Hlen & Hok & Hneg).
    change (imap ((fun j raw0 =>
                     run_cpu_task_in_executor ex (pool_late L' (idx j))
                       (cpu_mock_analyze_article_text raw0
                          (AgentConfig.mock_analysis_time cfg)
                          (cpu_late L' (idx j)))) ∘ S) raws)
      with (imap (fun j raw0 =>
                    process_article (SummarizeCategorizeStrategy L' cfg)
                      ((idx ∘ S) j) raw0 ex) raws).
    rewrite Hrun. rewrite list_insert_insert_eq.
    exists p', (d :: ds). split; [reflexivity|].
    split.
    { rewrite Hshape. subst p1. unfold pool_shape. simpl.
      rewrite Hs, length_insert. reflexivity. }
    split; [simpl; congruence|].
    split.
    + intros HP. simpl.
      destruct (cpu_mock_returns raw _ (cpu_late L' (idx 0%nat))
                  (Z.max
                     (default now
                        (ProcessPoolExecutor.idle_at p
                           !! ProcessPoolExecutor.earliest
                                (ProcessPoolExecutor.idle_at p))) now
                   + pool_late L' (idx 0%nat)) HP) as [r Hr].
      subst d. rewrite Hr. apply Hok, HP.
    + intros e HP. constructor; [|apply Hneg, HP].
      subst d. rewrite (cpu_mock_raises _ _ _ _ e (HP _ _)). reflexivity.
Qed.

Lemma all_raise_first_failure {A} (ds : list (Done A)) e :
  ds <> [] -> Forall (fun d => result d = Raise e) ds ->
  exists t, first_failure ds = Some (t, e).
Proof.
  intros Hne HF. induction HF as [|d ds Hd HF IH]; [congruence|].
  simpl. rewrite Hd. destruct ds as [|d' ds].
  - simpl. eauto.
  - destruct IH as [t Ht]; [discriminate|]. rewrite Ht.
    destruct (_ <=? _); eauto.
Qed.

(** The tasks [research] builds for the provided strategy once the
    manager has handed out its executor. *)
Lemma build_process_tasks_provided L' cfg mgr w r raws :
  executor mgr w = Return r ->
  build_process_tasks
    (NewsArticleAgent_init cfg mgr (SummarizeCategorizeStrategy L')) w 0 raws
  = Return (imap (fun j raw =>
                    process_article (SummarizeCategorizeStrategy L' cfg)
                      (0 + j) raw r) raws).
Proof.
  intros Hex. rewrite build_process_tasks_eq.
  destruct raws as [|raw raws]; [reflexivity|].
  cbn [executor_manager NewsArticleAgent_init]. rewrite Hex. reflexivity.
Qed.

(** [research] with the provided collaborators on a manager whose pool
    is open, spelled out: the fetch batch, then the process batch [ds] on
    the pool, then the report or the first failure. *)
Lemma research_on_open_pool L L' cfg mgr urls w r p :
  executor mgr w = Return r ->
  pools w !! r = Some p -> ProcessPoolExecutor.shut_down p = false ->
  exists w1 p' ds,
    gather (fetch_tasks_of (mock_fetch L)
              (NewsArticleAgent_init cfg mgr (SummarizeCategorizeStrategy L'))
              urls) w
    = (w1, Return (imap (fun i u =>
                RawArticleData.mk u (mock_content u)
                  (asyncio_sleep (AgentConfig.mock_fetch_delay cfg)
                     (clock w) (loop_late L i) - clock w)) urls)) /\
    pool_shape p' = pool_shape p /\
    length ds = length urls /\
    (0 <= AgentConfig.mock_analysis_time cfg <= sleep_max ->
     first_failure ds = None) /\
    (forall e,
       (forall t late,
          time_sleep (AgentConfig.mock_analysis_time cfg) t late = Raise e) ->
       Forall (fun d => result d = Raise e) ds) /\
    research L
      (NewsArticleAgent_init cfg mgr (SummarizeCategorizeStrategy L'))
      urls w
    = match first_failure ds with
      | Some (t, e) =>
          (mkWorld t (managers w) (<[r := p']> (pools w)), Raise e)
      | None =>
          (mkWorld (latest (clock w1) ds) (managers w)
             (<[r := p']> (pools w)),
           Return (NewsAgentReport.mk (values ds)
                     (Z.of_nat (length urls))
                     (latest (clock w1) ds - clock w)))
      end.
Proof.
  intros Hex Hp Hs.
  pose proof (fetch_gather L
                (NewsArticleAgent_init cfg mgr
                   (SummarizeCategorizeStrategy L')) urls w) as Hg.
  cbn [agent_config NewsArticleAgent_init] in Hg.
  match type of Hg with _ = (?w1', Return ?raws') =>
    set (w1 := w1') in *; set (raws := raws') in * end.
  destruct (batch_on_open_pool L' cfg r (clock w1) raws
              (fun j => (0 + j)%nat) (pools w) p Hp Hs)
    as (p' & ds & Hrun & Hshape & Hlen & Hok & Hneg).
  exists w1, p', ds.
  split; [exact Hg|]. split; [exact Hshape|].
  split; [rewrite Hlen; subst raws; apply length_imap|].
  split; [exact Hok|]. split; [exact Hneg|].
  unfold research, research_with.
  change (imap _ urls) with
    (fetch_tasks_of (mock_fetch L)
       (NewsArticleAgent_init cfg mgr (SummarizeCategorizeStrategy L')) urls).
  rewrite Hg.
  rewrite (build_process_tasks_provided L' cfg mgr w1 r raws)
    by (unfold executor in *; exact Hex).
  unfold gather at 1. change (pools w1) with (pools w). rewrite Hrun.
  destruct (first_failure ds) as [[t e]|]; reflexivity.
Qed.

Lemma pool_shape_open p p' :
  pool_shape p' = pool_shape p ->
  ProcessPoolExecutor.shut_down p = false ->
  ProcessPoolExecutor.shut_down p' = false.
Proof. unfold pool_shape. intros H Hs. injection H as _ -> _. exact Hs. Qed.

(** With the provided collaborators, [research] returns a report for
    every list of urls as soon as the manager holds an open pool and
    [time.sleep] carries out the analysis time (not negative,
    [os_sleep_max] at most): no lateness makes it fail. *)
Theorem research_succeeds L L' cfg mgr urls w r p :
  executor mgr w = Return r ->
  pools w !! r = Some p -> ProcessPoolExecutor.shut_down p = false ->
  0 <= AgentConfig.mock_analysis_time cfg <= os_sleep_max ->
  exists w' report,
    research L
      (NewsArticleAgent_init cfg mgr (SummarizeCategorizeStrategy L'))
      urls w = (w', Return report).
Proof.
  intros Hex Hp Hs HP%os_sleep_max_fits.
  destruct (research_on_open_pool L L' cfg mgr urls w r p Hex Hp Hs)
    as (w1 & p' & ds & _ & _ & _ & Hok & _ & Hres).
  rewrite (Hok HP) in Hres. eauto.
Qed.

Lemma research_succeeds_witness :
  exists w' report,
    research on_time demo_agent mock_article_urls demo_world
    = (w', Return report).
Proof.
  apply (research_succeeds on_time on_time demo_config 0%nat
           mock_article_urls demo_world 0%nat
           (ProcessPoolExecutor.mk 2 false [0; 0])).
  - reflexivity.
  - reflexivity.
  - reflexivity.
  - vm_compute. split; discriminate.
Defined.

(** What a report on a non-empty list tells about the run: the manager
    held an open pool, and [time.sleep] accepted the analysis time. *)
Lemma research_Return_open_pool L L' cfg mgr urls w w' report :
  urls <> [] ->
  research L (NewsArticleAgent_init cfg mgr (SummarizeCategorizeStrategy L'))
    urls w = (w', Return report) ->
  exists r p,
    executor mgr w = Return r /\ pools w !! r = Some p /\
    ProcessPoolExecutor.shut_down p = false /\
    0 <= AgentConfig.mock_analysis_time cfg <= sleep_max.
Proof.
  intros Hne H. unfold research in H.
  apply research_with_Return in H
    as (w1 & raws & tasks & results & Hg1 & Hb & Hg2 & _).
  change (imap _ urls) with
    (fetch_tasks_of (mock_fetch L)
       (NewsArticleAgent_init cfg mgr (SummarizeCategorizeStrategy L')) urls)
    in Hg1.
  rewrite fetch_gather in Hg1. injection Hg1 as <- <-.
  destruct urls as [|u urls]; [congruence|].
  rewrite imap_cons, build_process_tasks_eq in Hb.
  cbn [executor_manager NewsArticleAgent_init] in Hb.
  destruct (executor mgr _) as [r|e] eqn:Hex; cbn [bind] in Hb;
    [|discriminate].
  injection Hb as <-.
  apply gather_Return in Hg2 as (Hff & _).
  cbn [clock pools strategy NewsArticleAgent_init] in Hff.
  rewrite imap_cons in Hff. cbn [run_all] in Hff.
  cbn [process_article SummarizeCategorizeStrategy] in Hff.
  destruct (run_cpu_task_in_executor r _ _ _ (pools w)) as [ps1 d] eqn:Hd.
  destruct (run_all _ _ ps1) as [ps2 ds2]. cbn [snd] in Hff.
  apply first_failure_cons_None in Hff as [[a Ha] _].
  destruct (run_cpu_task_Return _ _ _ _ _ _ _ _ Hd Ha)
    as (p & Hp & Hs & Hcall & _).
  rewrite Hcall in Ha. apply cpu_mock_Return in Ha as (_ & HP & _).
  exists r, p. repeat split; try assumption; apply HP.
Qed.

(** A [research] that returned a report for a non-empty list leaves the
    agent ready for the next one: on the store it leaves behind, a
    further [research] returns a report, for any urls and under any
    lateness. *)
Theorem research_repeatable L L' L2 L2' cfg mgr urls urls2 w w1 report1 :
  urls <> [] ->
  research L (NewsArticleAgent_init cfg mgr (SummarizeCategorizeStrategy L'))
    urls w = (w1, Return report1) ->
  exists w2 report2,
    research L2
      (NewsArticleAgent_init cfg mgr (SummarizeCategorizeStrategy L2'))
      urls2 w1 = (w2, Return report2).
Proof.
  intros Hne H.
  destruct (research_Return_open_pool L L' cfg mgr urls w w1 report1 Hne H)
    as (r & p & Hex & Hp & Hs & HP).
  destruct (research_on_open_pool L L' cfg mgr urls w r p Hex Hp Hs)
    as (wf & p' & ds & _ & Hshape & _ & Hok & _ & Hres).
  rewrite (Hok HP), H in Hres. injection Hres as -> _.
  assert (Hp1 : <[r := p']> (pools w) !! r = Some p').
  { apply list_lookup_insert_eq. eapply lookup_lt_Some, Hp. }
  pose proof (pool_shape_open _ _ Hshape Hs) as Hs1.
  destruct (research_on_open_pool L2 L2' cfg mgr urls2
              (mkWorld (latest (clock wf) ds) (managers w)
                 (<[r := p']> (pools w))) r p' Hex Hp1 Hs1)
    as (wf2 & p2 & ds2 & _ & _ & _ & Hok2 & _ & Hres2).
  rewrite (Hok2 HP) in Hres2. eauto.
Qed.

Lemma research_repeatable_witness :
  exists w1 report1 w2 report2,
    research on_time demo_agent demo_urls demo_world = (w1, Return report1) /\
    research on_time demo_agent mock_article_urls w1 = (w2, Return report2).
Proof.
  destruct (research on_time demo_agent demo_urls demo_world)
    as [w1 [report1|e]] eqn:H; [|vm_compute in H; discriminate H].
  destruct (research_repeatable on_time on_time on_time on_time demo_config
              0%nat demo_urls mock_article_urls demo_world w1 report1)
    as (w2 & report2 & H2); [discriminate | exact H |].
  exists w1, report1, w2, report2. split; [reflexivity | exact H2].
Defined.

(** An analysis time that [time.sleep] refuses makes [research] fail on
    every non-empty list of urls, on an open pool too, with the
    exception of the worker's [time.sleep] and no report: a [ValueError]
    for a negative time down to [- sleep_max], an [OverflowError] for a
    time beyond [sleep_max] on either side. *)
Theorem research_refused_analysis_time L L' cfg mgr urls w r p :
  executor mgr w = Return r ->
  pools w !! r = Some p -> ProcessPoolExecutor.shut_down p = false ->
  urls <> [] ->
  (- sleep_max <= AgentConfig.mock_analysis_time cfg < 0 ->
   exists e,
     snd (research L
            (NewsArticleAgent_init cfg mgr (SummarizeCategorizeStrategy L'))
            urls w) = Raise e /\
     exc_type e = "ValueError"%string /\
     exc_msg e = "sleep length must be non-negative"%string) /\
  (AgentConfig.mock_analysis_time cfg < - sleep_max \/
   sleep_max < AgentConfig.mock_analysis_time cfg ->
   exists e,
     snd (research L
            (NewsArticleAgent_init cfg mgr (SummarizeCategorizeStrategy L'))
            urls w) = Raise e /\
     exc_type e = "OverflowError"%string).
Proof.
  intros Hex Hp Hs Hne.
  destruct (research_on_open_pool L L' cfg mgr urls w r p Hex Hp Hs)
    as (w1 & p' & ds & _ & _ & Hlen & _ & Hbad & Hres).
  assert (Hds : ds <> []).
  { intros Hnil. rewrite Hnil in Hlen. destruct urls; [congruence|].
    discriminate Hlen. }
  split; intros HP.
  - destruct (all_raise_first_failure ds _ Hds
                (Hbad _ (fun t late => time_sleep_negative _ t late HP)))
      as [t Ht].
    rewrite Ht in Hres. rewrite Hres. eexists. split; [reflexivity|].
    split; reflexivity.
  - destruct (all_raise_first_failure ds _ Hds
                (Hbad _ (fun t late => time_sleep_overflow _ t late HP)))
      as [t Ht].
    rewrite Ht in Hres. rewrite Hres. eexists. split; reflexivity.
Qed.

Lemma research_refused_analysis_time_witness :
  (exists e,
     snd (research on_time
            (NewsArticleAgent_init negative_config 0
               (SummarizeCategorizeStrategy on_time))
            mock_article_urls demo_world) = Raise e /\
     exc_type e = "ValueError"%string) /\
  (exists e,
     snd (research on_time
            (NewsArticleAgent_init (AgentConfig.mk 2 100 (10 ^ 13) 5000) 0
               (SummarizeCategorizeStrategy on_time))
            mock_article_urls demo_world) = Raise e /\
     exc_type e = "OverflowError"%string).
Proof.
  split.
  - destruct (research_refused_analysis_time on_time on_time negative_config
                0%nat mock_article_urls demo_world 0%nat
                (ProcessPoolExecutor.mk 2 false [0; 0])
                eq_refl eq_refl eq_refl ltac:(discriminate)) as [Hneg _].
    destruct Hneg as (e & He & Ht & _).
    + vm_compute. split; [discriminate | reflexivity].
    + exists e. split; [exact He | exact Ht].
  - destruct (research_refused_analysis_time on_time on_time
                (AgentConfig.mk 2 100 (10 ^ 13) 5000)
                0%nat mock_article_urls demo_world 0%nat
                (ProcessPoolExecutor.mk 2 false [0; 0])
                eq_refl eq_refl eq_refl ltac:(discriminate)) as [_ Hover].
    destruct Hover as (e & He & Ht).
    + right. vm_compute. reflexivity.
    + exists e. split; [exact He | exact Ht].
Defined.

(** On the empty list [research] returns the empty report, with count 0
    and duration 0, and leaves the store as it was: for every fetch
    collaborator and strategy, and also when the manager was never
    entered, since the [executor] property is not read. *)
Theorem research_empty_urls fetch self w :
  research_with fetch self [] w = (w, Return (NewsAgentReport.mk [] 0 0)).
Proof.
  unfold research_with, gather. simpl.
  unfold NewsAgentReport.new, report_kwargs, latest. simpl.
  rewrite Z.sub_diag. destruct w; reflexivity.
Qed.

(** On a manager that holds no executor (never entered, or exited),
    [research] on a non-empty list runs the fetches and then raises the
    [RuntimeError] of the [executor] property, for every strategy: the
    exception is raised when the fetch batch is complete, hence no sooner
    than any of the fetches has finished; no pool is touched and no
    report is returned. *)
Theorem research_without_pool L self urls w m :
  managers w !! executor_manager self = Some m -> _executor m = None ->
  urls <> [] ->
  snd (research L self urls w)
  = Raise (RuntimeError
      "Executor not initialized. Use ExecutorManager as an async context manager.")
  /\ clock (fst (research L self urls w))
     = fetch_end L (AgentConfig.mock_fetch_delay (agent_config self))
         (clock w) urls
  /\ (forall i u,
        urls !! i = Some u ->
        asyncio_sleep (AgentConfig.mock_fetch_delay (agent_config self))
          (clock w) (loop_late L i)
        <= clock (fst (research L self urls w)))
  /\ pools (fst (research L self urls w)) = pools w
  /\ managers (fst (research L self urls w)) = managers w.
Proof.
  intros Hm Hex Hne. unfold research, research_with.
  change (imap _ urls) with (fetch_tasks_of (mock_fetch L) self urls).
  rewrite fetch_gather. rewrite build_process_tasks_eq.
  fold (fetch_end L (AgentConfig.mock_fetch_delay (agent_config self))
          (clock w) urls).
  assert (Hraws : exists raw raws,
             imap (fun i u =>
                     RawArticleData.mk u (mock_content u)
                       (asyncio_sleep
                          (AgentConfig.mock_fetch_delay (agent_config self))
                          (clock w) (loop_late L i) - clock w)) urls
             = raw :: raws).
  { destruct urls as [|u urls]; [congruence|]. rewrite imap_cons. eauto. }
  destruct Hraws as (raw & raws & ->).
  unfold executor. cbn [managers]. rewrite Hm, Hex.
  cbn [bind fst snd pools managers clock].
  split; [reflexivity|]. split; [reflexivity|].
  split; [|auto].
  intros i u Hu. unfold fetch_end.
  match goal with |- _ <= latest _ ?ds =>
    destruct (latest_ge (clock w) ds) as [_ Hge] end.
  specialize (Hge (mkDone
                     (asyncio_sleep
                        (AgentConfig.mock_fetch_delay (agent_config self))
                        (clock w) (loop_late L i))
                     (Return
                        (RawArticleData.mk u (mock_content u)
                           (asyncio_sleep
                              (AgentConfig.mock_fetch_delay
                                 (agent_config self))
                              (clock w) (loop_late L i) - clock w))))).
  apply Hge. apply list_elem_of_lookup. exists i.
  rewrite list_lookup_imap, Hu. reflexivity.
Qed.

(** Four fetches of 100 ticks each, run side by side: the error comes
    100 ticks after the call. *)
Lemma research_without_pool_witness :
  snd (research on_time demo_agent demo_urls
         (fst (ExecutorManager_init 2 empty_world)))
  = Raise (RuntimeError
      "Executor not initialized. Use ExecutorManager as an async context manager.")
  /\ clock (fst (research on_time demo_agent demo_urls
                   (fst (ExecutorManager_init 2 empty_world)))) = 100.
Proof.
  destruct (research_without_pool on_time demo_agent demo_urls
              (fst (ExecutorManager_init 2 empty_world))
              (mkExecutorManager 2 None))
    as (Hraise & Hclock & _).
  - reflexivity.
  - reflexivity.
  - discriminate.
  - split; [exact Hraise|]. rewrite Hclock. reflexivity.
Defined.

(** What [research] leaves of the store, whatever it ends in. *)
Lemma research_store L L' cfg mgr urls w w' o :
  research L (NewsArticleAgent_init cfg mgr (SummarizeCategorizeStrategy L'))
    urls w = (w', o) ->
  managers w' = managers w /\
  map pool_shape (pools w') = map pool_shape (pools w) /\
  (forall ex r, executor mgr w = Return ex -> r <> ex ->
                pools w' !! r = pools w !! r).
Proof.
  unfold research, research_with.
  change (imap _ urls) with
    (fetch_tasks_of (mock_fetch L)
       (NewsArticleAgent_init cfg mgr (SummarizeCategorizeStrategy L')) urls).
  rewrite fetch_gather. cbn [agent_config NewsArticleAgent_init].
  match goal with |- context [build_process_tasks _ ?w1' _ ?raws'] =>
    set (w1 := w1'); set (raws := raws') end.
  destruct (executor mgr w) as [ex|e] eqn:Hex.
  - rewrite (build_process_tasks_provided L' cfg mgr w1 ex raws)
      by (unfold executor in *; exact Hex).
    unfold gather.
    destruct (run_all _ (clock w1) (pools w1)) as [ps' ds] eqn:Hrun.
    destruct (process_batch_store
                (fun i raw =>
                   process_article (SummarizeCategorizeStrategy L' cfg)
                     i raw ex)
                ex raws
                (fun i raw now ps ps0 d H => run_cpu_task_store _ _ _ _ _ _ _ H)
                (fun j => (0 + j)%nat) _ _ _ _ Hrun) as [Hshape Hother].
    destruct (first_failure ds) as [[t e]|]; intros H; injection H as <- _;
      cbn [managers pools]; (split; [reflexivity|]);
      (split; [exact Hshape|]);
      intros ex' r Hex' Hr; injection Hex' as <-; apply Hother, Hr.
  - rewrite build_process_tasks_eq.
    destruct raws as [|raw raws'] eqn:Hraws.
    + unfold gather. simpl. intros H; injection H as <- _.
      cbn [managers pools]. split; [reflexivity|]. split; [reflexivity|].
      intros ex r Hd. discriminate Hd.
    + cbn [executor_manager NewsArticleAgent_init].
      assert (Hex1 : executor mgr w1 = Raise e)
        by (unfold executor in *; exact Hex).
      rewrite Hex1. cbn [bind]. intros H; injection H as <- _.
      cbn [managers pools]. split; [reflexivity|]. split; [reflexivity|].
      intros ex r Hd. discriminate Hd.
Qed.

(** Whatever [research] ends in, a report or an exception, it leaves
    every manager as it was and changes no pool but in the times of its
    workers: no pool is created, dropped, shut down or resized; and the
    pools other than the manager's are left untouched. *)
Theorem research_keeps_store L L' cfg mgr urls w w' o :
  research L (NewsArticleAgent_init cfg mgr (SummarizeCategorizeStrategy L'))
    urls w = (w', o) ->
  managers w' = managers w /\
  map pool_shape (pools w') = map pool_shape (pools w) /\
  (forall ex r, executor mgr w = Return ex -> r <> ex ->
                pools w' !! r = pools w !! r).
Proof.
  intros H.
  destruct (research_store L L' cfg mgr urls w w' o H)
    as (Hm & Hshape & Hother).
  split; [exact Hm|]. split; [exact Hshape|exact Hother].
Qed.

Lemma research_keeps_store_witness :
  map pool_shape
    (pools (fst (research on_time demo_agent demo_urls demo_world)))
  = [(2, false, 2%nat)].
Proof.
  destruct (research on_time demo_agent demo_urls demo_world)
    as [w' o] eqn:H.
  destruct (research_keeps_store on_time on_time demo_config 0%nat
              demo_urls demo_world w' o H) as (_ & Hshape & _).
  cbn [fst]. rewrite Hshape. reflexivity.
Defined.

(** The results of a report are, position by position, what the urls
    decide: the url itself, its templated summary, the category
    ["Technology"] and the fixed entities.  Only the durations depend on
    the run. *)
Theorem research_output_determined L L' cfg mgr urls w w' report :
  research L (NewsArticleAgent_init cfg mgr (SummarizeCategorizeStrategy L'))
    urls w = (w', Return report) ->
  map analysis_output (NewsAgentReport.results report)
  = map expected_output urls.
Proof.
  intros H. apply research_provided_Return in H.
  destruct H as (raws & Hfetch & Hproc & _).
  revert Hproc. generalize (NewsAgentReport.results report) as rs.
  induction Hfetch as [|u raw urls' raws' [Hu Hc] _ IH]; intros rs Hproc;
    inversion Hproc as [|? r ? rs' Hr Hrest]; subst; simpl; [reflexivity|].
  f_equal; [|apply IH, Hrest].
  destruct Hr as (Hurl & Hsum & Hcat & Hent).
  rewrite Hc, mock_content_has_marker in Hcat.
  unfold analysis_output, expected_output. congruence.
Qed.

Lemma research_output_determined_witness :
  exists w' report,
    research on_time demo_agent demo_urls demo_world = (w', Return report) /\
    map analysis_output (NewsAgentReport.results report)
    = map expected_output demo_urls.
Proof.
  destruct (research on_time demo_agent demo_urls demo_world)
    as [w' [report|e]] eqn:H; [|vm_compute in H; discriminate H].
  exists w', report. split; [reflexivity|].
  apply (research_output_determined on_time on_time demo_config 0%nat
           demo_urls demo_world w' report H).
Defined.

(* ===================================================================== *)
(** ** More on the life cycle of the manager *)
(* ===================================================================== *)

Lemma drained_fresh n now :
  foldr Z.max now (replicate n now) = now.
Proof. induction n as [|n IH]; simpl; [reflexivity|]. rewrite IH. lia. Qed.

Lemma aenter_positive w self m :
  managers w !! self = Some m -> 0 < _max_workers m ->
  __aenter__ self w
  = (mkWorld (clock w)
       (<[self := mkExecutorManager (_max_workers m)
                    (Some (length (pools w)))]> (managers w))
       (pools w ++
        [ProcessPoolExecutor.mk (_max_workers m) false
           (replicate (Z.to_nat (_max_workers m)) (clock w))]),
     Return self).
Proof.
  intros Hm Hn. unfold __aenter__, ProcessPoolExecutor.new. rewrite Hm.
  destruct (Z.leb_spec (_max_workers m) 0); [lia|reflexivity].
Qed.

(** Entering a fresh manager, with a worker count from 1 to
    [_MAX_WINDOWS_WORKERS], and exiting it again is a round trip for the
    manager and the clock: the exit succeeds, the manager is as it was
    constructed, no time has passed, the pools that existed are as they
    were, and the one pool the entry created is left shut down. *)
Theorem enter_exit_round_trip w self m :
  managers w !! self = Some m -> _executor m = None ->
  0 < _max_workers m <= ProcessPoolExecutor._MAX_WINDOWS_WORKERS ->
  snd (__aexit__ self (fst (__aenter__ self w))) = Return tt /\
  managers (fst (__aexit__ self (fst (__aenter__ self w)))) = managers w /\
  clock (fst (__aexit__ self (fst (__aenter__ self w)))) = clock w /\
  exists p,
    pools (fst (__aexit__ self (fst (__aenter__ self w)))) = pools w ++ [p] /\
    ProcessPoolExecutor.shut_down p = true /\
    ProcessPoolExecutor.max_workers p = _max_workers m.
Proof.
  intros Hm Hex [Hn _]. rewrite (aenter_positive w self m Hm Hn). cbn [fst].
  pose proof (lookup_lt_Some _ _ _ Hm) as Hlt.
  erewrite aexit_open.
  2:{ cbn [managers]. apply list_lookup_insert_eq, Hlt. }
  2:{ reflexivity. }
  2:{ cbn [pools]. apply list_lookup_middle. reflexivity. }
  cbn [fst snd managers clock pools _max_workers].
  split; [reflexivity|]. split.
  { rewrite list_insert_insert_eq. apply list_insert_id.
    rewrite Hm. destruct m as [n ex]. simpl in *. subst ex. reflexivity. }
  split.
  { unfold ProcessPoolExecutor.drained_at. simpl. apply drained_fresh. }
  eexists. split.
  { replace (length (pools w)) with (length (pools w) + 0)%nat by lia.
    rewrite insert_app_r. simpl. reflexivity. }
  split; reflexivity.
Qed.

Lemma enter_exit_round_trip_witness :
  managers (fst (__aexit__ 0
                   (fst (__aenter__ 0
                           (fst (ExecutorManager_init 2 empty_world))))))
  = [mkExecutorManager 2 None].
Proof.
  destruct (enter_exit_round_trip
              (fst (ExecutorManager_init 2 empty_world)) 0
              (mkExecutorManager 2 None) eq_refl eq_refl)
    as (_ & Hm & _); [vm_compute; split; [reflexivity | discriminate]|].
  rewrite Hm. reflexivity.
Defined.



(* ===================================================================== *)
(** ** The two batches of [research] in view *)
(* ===================================================================== *)

(** The process batch of [research] on an open pool, with the run of the
    batch in view. *)
Lemma research_process_phase L L' cfg mgr urls w r p :
  executor mgr w = Return r ->
  pools w !! r = Some p -> ProcessPoolExecutor.shut_down p = false ->
  exists p' ds,
    run_all
      (imap (fun j raw =>
               process_article (SummarizeCategorizeStrategy L' cfg)
                 (0 + j) raw r)
            (fetched L (AgentConfig.mock_fetch_delay cfg) (clock w) urls))
      (fetch_end L (AgentConfig.mock_fetch_delay cfg) (clock w) urls)
      (pools w)
    = (<[r := p']> (pools w), ds) /\
    pool_shape p' = pool_shape p /\
    (0 <= AgentConfig.mock_analysis_time cfg <= sleep_max ->
     first_failure ds = None) /\
    research L
      (NewsArticleAgent_init cfg mgr (SummarizeCategorizeStrategy L'))
      urls w
    = match first_failure ds with
      | Some (t, e) =>
          (mkWorld t (managers w) (<[r := p']> (pools w)), Raise e)
      | None =>
          (mkWorld
             (latest
                (fetch_end L (AgentConfig.mock_fetch_delay cfg) (clock w) urls)
                ds)
             (managers w) (<[r := p']> (pools w)),
           Return (NewsAgentReport.mk (values ds)
                     (Z.of_nat (length urls))
                     (latest
                        (fetch_end L (AgentConfig.mock_fetch_delay cfg)
                           (clock w) urls) ds
                      - clock w)))
      end.
Proof.
  intros Hex Hp Hs.
  destruct (batch_on_open_pool L' cfg r
              (fetch_end L (AgentConfig.mock_fetch_delay cfg) (clock w) urls)
              (fetched L (AgentConfig.mock_fetch_delay cfg) (clock w) urls)
              (fun j => (0 + j)%nat) (pools w) p Hp Hs)
    as (p' & ds & Hrun & Hshape & _ & Hok & _).
  exists p', ds. split; [exact Hrun|]. split; [exact Hshape|].
  split; [exact Hok|].
  unfold research, research_with.
  change (imap _ urls) with
    (fetch_tasks_of (mock_fetch L)
       (NewsArticleAgent_init cfg mgr (SummarizeCategorizeStrategy L')) urls).
  rewrite fetch_gather. cbn [agent_config NewsArticleAgent_init].
  fold (fetched L (AgentConfig.mock_fetch_delay cfg) (clock w) urls).
  fold (fetch_end L (AgentConfig.mock_fetch_delay cfg) (clock w) urls).
  rewrite (build_process_tasks_provided L' cfg mgr _ r)
    by (unfold executor in *; exact Hex).
  unfold gather at 1. cbn [clock pools managers]. rewrite Hrun.
  destruct (first_failure ds) as [[t e]|]; reflexivity.
Qed.

(* ===================================================================== *)
(** ** The duration of [research] between two bounds *)
(* ===================================================================== *)

Lemma earliest_from_min rest :
  forall i best_i best,
    (best_i < i)%nat ->
    (ProcessPoolExecutor.earliest_from i best_i best rest = best_i /\
     Forall (fun x => best <= x) rest) \/
    (exists x : seconds,
       (i <= ProcessPoolExecutor.earliest_from i best_i best rest)%nat /\
       rest !! (ProcessPoolExecutor.earliest_from i best_i best rest - i)%nat
         = Some x /\
       x <= best /\ Forall (fun y => x <= y) rest).
Proof.
  induction rest as [|x rest IH]; intros i best_i best Hlt; simpl.
  - left. split; [reflexivity | constructor].
  - destruct (Z.ltb_spec x best) as [Hx|Hx].
    + right. destruct (IH (S i) i x ltac:(lia)) as [[Hr Hall]|(y & Hi & Hy & Hle & Hall)].
      * exists x. rewrite Hr. rewrite Nat.sub_diag. simpl.
        repeat split; try lia. constructor; [lia | exact Hall].
      * exists y. split; [lia|]. split.
        { replace (ProcessPoolExecutor.earliest_from (S i) i x rest - i)%nat
            with (S (ProcessPoolExecutor.earliest_from (S i) i x rest - S i))
            by lia.
          exact Hy. }
        split; [lia|]. constructor; [lia | exact Hall].
    + destruct (IH (S i) best_i best ltac:(lia))
        as [[Hr Hall]|(y & Hi & Hy & Hle & Hall)].
      * left. split; [exact Hr|]. constructor; [lia | exact Hall].
      * right. exists y. split; [lia|]. split.
        { replace (ProcessPoolExecutor.earliest_from (S i) best_i best rest
                   - i)%nat
            with (S (ProcessPoolExecutor.earliest_from (S i) best_i best rest
                     - S i)) by lia.
          exact Hy. }
        split; [lia|]. constructor; [lia | exact Hall].
Qed.

(** The worker [earliest] picks is free no later than any other. *)
Lemma earliest_min idle :
  idle <> [] ->
  exists f : seconds,
    idle !! ProcessPoolExecutor.earliest idle = Some f /\
    forall j (g : seconds), idle !! j = Some g -> f <= g.
Proof.
  destruct idle as [|x rest]; [congruence|]. intros _. simpl.
  destruct (earliest_from_min rest 1 0 x ltac:(lia))
    as [[Hr Hall]|(y & Hi & Hy & Hle & Hall)].
  - rewrite Hr. exists x. split; [reflexivity|].
    intros [|j] g Hg; simpl in Hg.
    + injection Hg as <-. lia.
    + eapply Forall_lookup_1 in Hall; [|exact Hg]. exact Hall.
  - exists y. split.
    { destruct (ProcessPoolExecutor.earliest_from 1 0 x rest) as [|n];
        [lia|]. simpl. replace (S n - 1)%nat with n in Hy by lia. exact Hy. }
    intros [|j] g Hg; simpl in Hg.
    + injection Hg as <-. exact Hle.
    + eapply Forall_lookup_1 in Hall; [|exact Hg]. exact Hall.
Qed.

(** Some worker took at most its share of the calls. *)
Lemma pigeonhole_min (cnt : list nat) :
  cnt <> [] ->
  exists w c, cnt !! w = Some c /\ (c * length cnt <= sum_list cnt)%nat.
Proof.
  induction cnt as [|x cnt IH]; [congruence|]. intros _.
  destruct cnt as [|y cnt].
  - exists 0%nat, x. split; [reflexivity | simpl; lia].
  - destruct IH as (w & c & Hc & Hle); [discriminate|].
    destruct (le_lt_dec x c) as [Hxc|Hxc].
    + exists 0%nat, x. split; [reflexivity|].
      simpl in *. nia.
    + exists (S w), c. split; [exact Hc|]. simpl in *. nia.
Qed.

Lemma ceil_div_ge n w c j :
  0 < w -> c * w <= j -> j + 1 <= n -> c + 1 <= ceil_div n w.
Proof.
  intros Hw Hc Hj. unfold ceil_div.
  apply Z.div_le_lower_bound; [exact Hw | nia].
Qed.

(** With a hand-over of [b] and an oversleep of [c] at most, no call of
    a batch of [n] ends later than [ceil(n / W)] times the analysis time
    plus [b + c] after the batch was handed over: the call queue is
    served by whichever worker is free first, so the calls spread over
    the workers. *)
Lemma pool_batch_upper L' cfg ex now b c (n : nat)
    (raws : list RawArticleData.t) :
  (forall i, 0 <= pool_late L' i <= b /\ 0 <= cpu_late L' i <= c) ->
  forall (idx : nat -> nat) ps p cnt ps' ds,
    ps !! ex = Some p ->
    ProcessPoolExecutor.idle_at p <> [] ->
    run_all (imap (fun j raw =>
                     process_article (SummarizeCategorizeStrategy L' cfg)
                       (idx j) raw ex) raws) now ps = (ps', ds) ->
    first_failure ds = None ->
    load_inv now (AgentConfig.mock_analysis_time cfg + b + c)
      (ProcessPoolExecutor.idle_at p) cnt ->
    (sum_list cnt + length raws <= n)%nat ->
    Forall (fun d =>
              finished_at d
              <= now + ceil_div (Z.of_nat n)
                         (Z.of_nat (length (ProcessPoolExecutor.idle_at p)))
                       * (AgentConfig.mock_analysis_time cfg + b + c)) ds.
Proof.
  intros HL. induction raws as [|raw raws IH];
    intros idx ps p cnt ps' ds Hp Hne Hrun Hff Hinv Hn.
  - simpl in Hrun. injection Hrun as <- <-. constructor.
  - rewrite imap_cons in Hrun. cbn [run_all] in Hrun.
    cbn [process_article SummarizeCategorizeStrategy] in Hrun.
    destruct (run_cpu_task_in_executor ex (pool_late L' (idx 0%nat))
                (cpu_mock_analyze_article_text raw
                   (AgentConfig.mock_analysis_time cfg)
                   (cpu_late L' (idx 0%nat))) now ps)
      as [ps1 d] eqn:Hd.
    destruct (run_all _ now ps1) as [ps2 ds2] eqn:Hrest.
    injection Hrun as <- <-.
    apply first_failure_cons_None in Hff as [[r Ha] Hff2].
    destruct (run_cpu_task_Return _ _ _ _ _ _ _ _ Hd Ha)
      as (p0 & Hp0 & Hopen & Hcall & Hps1).
    rewrite Hp in Hp0. injection Hp0 as <-.
    set (wk := ProcessPoolExecutor.earliest (ProcessPoolExecutor.idle_at p))
      in *.
    destruct (earliest_min _ Hne) as (f0 & Hf0 & Hmin). fold wk in Hf0.
    pose proof (lookup_lt_Some _ _ _ Hf0) as Hwk.
    destruct Hinv as [Hlen Hload].
    assert (Hwk' : (wk < length cnt)%nat) by (rewrite Hlen; exact Hwk).
    destruct (lookup_lt_is_Some_2 _ _ Hwk') as [c0 Hc0].
    rewrite Hf0 in Hcall. cbn [default] in Hcall.
    pose proof Ha as Hmock. rewrite Hcall in Hmock.
    apply cpu_mock_Return in Hmock as (_ & [HP _] & _ & Hfin).
    rewrite <- Hcall in Hfin. unfold id in Hfin.
    destruct (HL (idx 0%nat)) as (Hpl & Hcl).
    set (Q := AgentConfig.mock_analysis_time cfg + b + c) in *.
    assert (HQ : 0 <= Q) by (subst Q; lia).
    pose proof (Hload wk c0 f0 Hc0 Hf0) as Hbusy0.
    assert (Hcne : cnt <> []).
    { intros Hnil. rewrite Hnil in Hwk'. simpl in Hwk'. lia. }
    destruct (pigeonhole_min cnt Hcne) as (wm & cm & Hcm & Hshare).
    assert (Hwm : (wm < length (ProcessPoolExecutor.idle_at p))%nat).
    { rewrite <- Hlen. eapply lookup_lt_Some, Hcm. }
    destruct (lookup_lt_is_Some_2 _ _ Hwm) as [fm Hfm].
    pose proof (Hload wm cm fm Hcm Hfm) as Hbusym.
    pose proof (Hmin wm fm Hfm) as Hle.
    set (W := length (ProcessPoolExecutor.idle_at p)) in *.
    assert (HW : 0 < Z.of_nat W) by lia.
    assert (Hceil : Z.of_nat cm + 1 <= ceil_div (Z.of_nat n) (Z.of_nat W)).
    { apply (ceil_div_ge _ _ _ (Z.of_nat (sum_list cnt))); [exact HW| |].
      - rewrite Hlen in Hshare. lia.
      - simpl in Hn. lia. }
    assert (Hstart : Z.max f0 now <= now + Z.of_nat cm * Q) by nia.
    assert (Hend : finished_at d <= Z.max f0 now + Q) by (subst Q; lia).
    set (p1 := ProcessPoolExecutor.mk (ProcessPoolExecutor.max_workers p)
                 false
                 (<[wk := finished_at d]> (ProcessPoolExecutor.idle_at p)))
      in *.
    assert (Hp1 : ps1 !! ex = Some p1).
    { rewrite Hps1. apply list_lookup_insert_eq.
      eapply lookup_lt_Some, Hp. }
    constructor.
    + nia.
    + assert (HW1 : length (ProcessPoolExecutor.idle_at p1) = W).
      { subst p1. cbn [ProcessPoolExecutor.idle_at]. apply length_insert. }
      rewrite <- HW1.
      apply (IH (idx ∘ S) ps1 p1 (<[wk := S c0]> cnt) ps2 ds2 Hp1).
      * intros Hnil. rewrite Hnil in HW1. simpl in HW1. lia.
      * exact Hrest.
      * exact Hff2.
      * subst p1. cbn [ProcessPoolExecutor.idle_at]. split.
        -- rewrite !length_insert. exact Hlen.
        -- intros w c' f Hc Hf.
           destruct (decide (w = wk)) as [->|Hneq].
           ++ rewrite list_lookup_insert_eq in Hc by exact Hwk'.
              rewrite list_lookup_insert_eq in Hf by exact Hwk.
              injection Hc as <-. injection Hf as <-. nia.
           ++ rewrite list_lookup_insert_ne in Hc by congruence.
              rewrite list_lookup_insert_ne in Hf by congruence.
              apply (Hload w c' f Hc Hf).
      * rewrite (sum_list_insert_S cnt wk c0 Hc0). simpl in Hn. lia.
Qed.

Lemma latest_le {A} now B (ds : list (Done A)) :
  now <= B -> Forall (fun d => finished_at d <= B) ds -> latest now ds <= B.
Proof.
  intros Hle HF. unfold latest.
  induction HF as [|d ds Hd HF IH]; simpl; lia.
Qed.

(** The fetch batch is complete no sooner than the delay after it was
    started, when no fetch wakes early, and no later than the delay plus
    the longest lateness. *)
Lemma fetch_end_not_early L delay now urls :
  (forall i, 0 <= loop_late L i) -> urls <> [] ->
  now + Z.max 0 delay <= fetch_end L delay now urls.
Proof.
  intros HL Hne. unfold fetch_end.
  destruct urls as [|u urls]; [congruence|]. rewrite imap_cons.
  match goal with |- _ <= latest _ (?d :: ?ds) =>
    destruct (latest_ge now (d :: ds)) as [_ Hge];
    specialize (Hge d (list_elem_of_here _ _))
  end.
  cbn [finished_at] in Hge. unfold asyncio_sleep in *.
  specialize (HL 0%nat). lia.
Qed.

Lemma fetch_end_within L delay now urls a :
  (forall i, 0 <= loop_late L i <= a) ->
  fetch_end L delay now urls <= now + Z.max 0 delay + a.
Proof.
  intros HL. unfold fetch_end. apply latest_le.
  - specialize (HL 0%nat). lia.
  - apply Forall_lookup_2. intros i d Hd.
    apply list_lookup_imap_Some in Hd as (u & _ & ->). simpl.
    unfold asyncio_sleep. specialize (HL i). lia.
Qed.

(** A batch on a pool lasts [ceil(n / W)] analysis times at least, when
    nothing is early. *)
Lemma batch_lower_bound L' cfg ex now (raws : list RawArticleData.t)
    (idx : nat -> nat) ps p ps' ds :
  punctual L' -> ps !! ex = Some p ->
  ProcessPoolExecutor.idle_at p <> [] ->
  run_all (imap (fun j raw =>
                   process_article (SummarizeCategorizeStrategy L' cfg)
                     (idx j) raw ex) raws) now ps = (ps', ds) ->
  first_failure ds = None -> raws <> [] ->
  now + ceil_div (Z.of_nat (length raws))
          (Z.of_nat (length (ProcessPoolExecutor.idle_at p)))
        * AgentConfig.mock_analysis_time cfg
  <= latest now ds.
Proof.
  intros HL Hp Hidle Hrun Hff Hne.
  destruct (pool_batch L' cfg ex now (latest now ds) raws HL idx ps p
              (replicate (length (ProcessPoolExecutor.idle_at p)) 0%nat)
              ps' ds Hp Hidle Hrun Hff)
    as (p' & cnt' & _ & [Hlenc Hbusy] & Hsum & Hlenp & HP).
  - apply latest_ge.
  - split; [apply length_replicate|].
    intros wk c f Hc _ Hpos. apply lookup_replicate in Hc as [-> _]. lia.
  - rewrite sum_list_replicate, Nat.mul_0_r, Nat.add_0_l in Hsum.
    destruct (HP Hne) as [HP0 _].
    assert (Hcne : cnt' <> []).
    { intros Hnil. rewrite Hnil in Hlenc. simpl in Hlenc.
      destruct (ProcessPoolExecutor.idle_at p); [congruence|].
      rewrite Hlenp in Hlenc. discriminate Hlenc. }
    destruct (pigeonhole cnt' Hcne) as (wk & c & Hc & Hshare).
    assert (Hwk : (wk < length (ProcessPoolExecutor.idle_at p'))%nat).
    { rewrite <- Hlenc. eapply lookup_lt_Some, Hc. }
    destruct (lookup_lt_is_Some_2 _ _ Hwk) as [f Hf].
    rewrite Hsum, Hlenc, Hlenp in Hshare.
    assert (Hcpos : (0 < c)%nat).
    { destruct c; [|lia]. destruct raws; [congruence|]. simpl in Hshare. lia. }
    destruct (Hbusy wk c f Hc Hf Hcpos) as [Hlo Hhi].
    assert (Hceil : ceil_div (Z.of_nat (length raws))
                      (Z.of_nat (length (ProcessPoolExecutor.idle_at p)))
                    <= Z.of_nat c).
    { apply ceil_div_le.
      - destruct (ProcessPoolExecutor.idle_at p); [congruence|simpl; lia].
      - rewrite <- Nat2Z.inj_mul. apply Nat2Z.inj_le. exact Hshare. }
    nia.
Qed.

Lemma ceil_div_nonneg n w : 0 <= n -> 0 < w -> 0 <= ceil_div n w.
Proof. intros Hn Hw. unfold ceil_div. apply Z.div_pos; lia. Qed.

Lemma pool_wf_width p :
  pool_wf p ->
  Z.of_nat (length (ProcessPoolExecutor.idle_at p))
  = ProcessPoolExecutor.max_workers p /\
  ProcessPoolExecutor.idle_at p <> [].
Proof.
  intros [Hpos Hlen]. split; [rewrite Hlen; lia|].
  intros Hnil. rewrite Hnil in Hlen. simpl in Hlen. lia.
Qed.

Lemma late_within_punctual a b c L : late_within a b c L -> punctual L.
Proof. intros H i. destruct (H i) as (? & ? & ?). lia. Qed.

(** The duration of [research] on a pool whose workers are free, between
    its two bounds. *)
Lemma research_duration_within a b c L L' cfg mgr urls w r p :
  late_within a b c L -> late_within a b c L' -> urls <> [] ->
  executor mgr w = Return r -> pools w !! r = Some p ->
  ProcessPoolExecutor.shut_down p = false -> pool_wf p ->
  all_idle p (clock w) ->
  0 <= AgentConfig.mock_analysis_time cfg <= sleep_max ->
  exists w' report,
    research L
      (NewsArticleAgent_init cfg mgr (SummarizeCategorizeStrategy L'))
      urls w = (w', Return report) /\
    Z.max 0 (AgentConfig.mock_fetch_delay cfg)
    + ceil_div (Z.of_nat (length urls)) (ProcessPoolExecutor.max_workers p)
      * AgentConfig.mock_analysis_time cfg
    <= NewsAgentReport.total_time_taken report /\
    NewsAgentReport.total_time_taken report
    <= Z.max 0 (AgentConfig.mock_fetch_delay cfg) + a
       + ceil_div (Z.of_nat (length urls)) (ProcessPoolExecutor.max_workers p)
         * (AgentConfig.mock_analysis_time cfg + b + c).
Proof.
  intros HL HL' Hne Hex Hp Hs Hwf Hidle HP.
  destruct (research_process_phase L L' cfg mgr urls w r p Hex Hp Hs)
    as (p' & ds & Hrun & _ & Hok & Hres).
  specialize (Hok HP). rewrite Hok in Hres.
  eexists _, _. split; [exact Hres|].
  cbn [NewsAgentReport.total_time_taken].
  destruct (pool_wf_width p Hwf) as [HW Hnil].
  set (now1 := fetch_end L (AgentConfig.mock_fetch_delay cfg) (clock w) urls)
    in *.
  set (raws := fetched L (AgentConfig.mock_fetch_delay cfg) (clock w) urls)
    in *.
  assert (Hlen : length raws = length urls) by apply length_imap.
  assert (Hraws : raws <> []).
  { intros H0. rewrite H0 in Hlen. destruct urls; [congruence|discriminate]. }
  assert (Hlo1 : clock w + Z.max 0 (AgentConfig.mock_fetch_delay cfg) <= now1).
  { apply fetch_end_not_early; [|exact Hne].
    intros i. destruct (HL i) as (? & _). lia. }
  assert (Hhi1 : now1 <= clock w + Z.max 0 (AgentConfig.mock_fetch_delay cfg)
                          + a).
  { apply fetch_end_within. intros i. destruct (HL i) as (? & _). lia. }
  pose proof (batch_lower_bound L' cfg r now1 raws _ (pools w) p _ ds
                (late_within_punctual _ _ _ _ HL') Hp Hnil Hrun Hok Hraws)
    as Hlo2.
  assert (Hup : Forall (fun d =>
                  finished_at d
                  <= now1 + ceil_div (Z.of_nat (length raws))
                       (Z.of_nat (length (ProcessPoolExecutor.idle_at p)))
                     * (AgentConfig.mock_analysis_time cfg + b + c)) ds).
  { apply (pool_batch_upper L' cfg r now1 b c (length raws) raws
             (fun i => let '(conj _ H) := HL' i in H)
             (fun j => (0 + j)%nat) (pools w) p
             (replicate (length (ProcessPoolExecutor.idle_at p)) 0%nat)
             _ ds Hp Hnil Hrun Hok).
    - split; [apply length_replicate|].
      intros wk c' f Hc Hf. apply lookup_replicate in Hc as [-> _].
      eapply Forall_lookup_1 in Hidle; [|exact Hf]. simpl in *. lia.
    - rewrite sum_list_replicate. lia. }
  rewrite Hlen, HW in *.
  destruct (HL' 0%nat) as (_ & Hb & Hc).
  pose proof (ceil_div_nonneg (Z.of_nat (length urls))
                (ProcessPoolExecutor.max_workers p) ltac:(lia)
                ltac:(destruct Hwf; assumption)) as Hc0.
  apply (latest_le now1) in Hup; [|nia].
  split; lia.
Qed.

(** On a pool that is open with all its [W] workers free, with an
    analysis time [P] that [time.sleep] carries out, and with tasks that
    are never early and late by [a] (fetches), [b] (hand-over to a
    worker) and [c] (oversleep) at most, [research] on [N > 0] urls
    returns a report whose duration lies between
    [max(0, F) + ceil(N / W) * P] and
    [max(0, F) + a + ceil(N / W) * (P + b + c)]: the fetches overlap, and
    the analyses spread over the workers. *)
Theorem research_duration_bounds a b c L L' cfg mgr urls w r p :
  late_within a b c L -> late_within a b c L' -> urls <> [] ->
  executor mgr w = Return r -> pools w !! r = Some p ->
  ProcessPoolExecutor.shut_down p = false -> pool_wf p ->
  all_idle p (clock w) ->
  0 <= AgentConfig.mock_analysis_time cfg <= os_sleep_max ->
  exists w' report,
    research L
      (NewsArticleAgent_init cfg mgr (SummarizeCategorizeStrategy L'))
      urls w = (w', Return report) /\
    Z.max 0 (AgentConfig.mock_fetch_delay cfg)
    + ceil_div (Z.of_nat (length urls)) (ProcessPoolExecutor.max_workers p)
      * AgentConfig.mock_analysis_time cfg
    <= NewsAgentReport.total_time_taken report /\
    NewsAgentReport.total_time_taken report
    <= Z.max 0 (AgentConfig.mock_fetch_delay cfg) + a
       + ceil_div (Z.of_nat (length urls)) (ProcessPoolExecutor.max_workers p)
         * (AgentConfig.mock_analysis_time cfg + b + c).
Proof.
  intros HL HL' Hne Hex Hp Hs Hwf Hidle HP%os_sleep_max_fits.
  destruct (research_duration_within a b c L L' cfg mgr urls w r p
              HL HL' Hne Hex Hp Hs Hwf Hidle HP)
    as (w' & report & Hres & Hlo & Hhi).
  exists w', report. split; [exact Hres|]. split; [exact Hlo | exact Hhi].
Qed.

(** Six urls on two workers, a fetch of 100 and an analysis of 200
    ticks, every fetch 3 late, every hand-over 2 and every sleep 1:
    between 700 and 712 ticks. *)
Lemma research_duration_bounds_witness :
  exists w' report,
    research (mkLateness (fun _ => 3) (fun _ => 2) (fun _ => 1))
      (NewsArticleAgent_init demo_config 0
         (SummarizeCategorizeStrategy
            (mkLateness (fun _ => 3) (fun _ => 2) (fun _ => 1))))
      mock_article_urls demo_world
    = (w', Return report) /\
    700 <= NewsAgentReport.total_time_taken report <= 712.
Proof.
  destruct (research_duration_bounds 3 2 1
              (mkLateness (fun _ => 3) (fun _ => 2) (fun _ => 1))
              (mkLateness (fun _ => 3) (fun _ => 2) (fun _ => 1))
              demo_config 0%nat
              mock_article_urls demo_world 0%nat
              (ProcessPoolExecutor.mk 2 false [0; 0]))
    as (w' & report & Hres & Hlo & Hhi).
  - intros i. cbn [loop_late pool_late cpu_late]. lia.
  - intros i. cbn [loop_late pool_late cpu_late]. lia.
  - discriminate.
  - reflexivity.
  - reflexivity.
  - reflexivity.
  - split; [simpl; lia|reflexivity].
  - unfold all_idle. simpl. repeat (constructor; [lia|]). constructor.
  - vm_compute. split; discriminate.
  - exists w', report. split; [exact Hres|].
    change (700 <= NewsAgentReport.total_time_taken report <= 712)
      with (Z.max 0 (AgentConfig.mock_fetch_delay demo_config)
            + ceil_div (Z.of_nat (length mock_article_urls)) 2
              * AgentConfig.mock_analysis_time demo_config
            <= NewsAgentReport.total_time_taken report
            <= Z.max 0 (AgentConfig.mock_fetch_delay demo_config) + 3
               + ceil_div (Z.of_nat (length mock_article_urls)) 2
                 * (AgentConfig.mock_analysis_time demo_config + 2 + 1)).
    split; [exact Hlo | exact Hhi].
Defined.

(* ===================================================================== *)
(** ** The sequential comparison of [main] *)
(* ===================================================================== *)

(** Whatever the loop ends in, it leaves managers and pools alone. *)
Lemma sequential_loop_store L cfg urls :
  forall i w w' o,
    sequential_loop L cfg i urls w = (w', o) ->
    managers w' = managers w /\ pools w' = pools w.
Proof.
  induction urls as [|u urls IH]; intros i w w' o; simpl.
  - intros H; injection H as <- _. auto.
  - unfold await, blocking, async_mock_fetch_article_content. simpl.
    destruct (result (cpu_mock_analyze_article_text _ _ _ _)) as [a|e].
    + match goal with |- context [sequential_loop L cfg (S i) urls ?w2] =>
        destruct (sequential_loop L cfg (S i) urls w2) as [w3 [rs|e]] eqn:Hrest
      end; intros H; injection H as <- _;
        apply IH in Hrest; simpl in Hrest; exact Hrest.
    + intros H; injection H as <- _. auto.
Qed.

(** With an analysis time that [time.sleep] accepts the loop returns one
    result per url, in order, each what the url decides; when nothing is
    early, it lasts the sum of all fetch delays and analysis times at
    least. *)
Lemma sequential_loop_spec L cfg urls :
  0 <= AgentConfig.mock_analysis_time cfg <= sleep_max ->
  forall i w,
    exists w' rs,
      sequential_loop L cfg i urls w = (w', Return rs) /\
      map analysis_output rs = map expected_output urls /\
      ((forall j, 0 <= loop_late L j /\ 0 <= cpu_late L j) ->
       clock w
       + Z.of_nat (length urls)
         * (Z.max 0 (AgentConfig.mock_fetch_delay cfg)
            + AgentConfig.mock_analysis_time cfg)
       <= clock w').
Proof.
  intros HP. induction urls as [|u urls IH]; intros i w.
  - exists w, []. simpl. repeat split; try reflexivity. intros _. lia.
  - cbn [sequential_loop].
    unfold await, blocking, async_mock_fetch_article_content.
    cbn [result finished_at clock managers pools].
    unfold cpu_mock_analyze_article_text.
    rewrite (time_sleep_returns _ _ _ HP).
    cbn [result finished_at RawArticleData.url RawArticleData.content].
    rewrite mock_content_has_marker.
    match goal with |- context [sequential_loop L cfg (S i) urls ?w2] =>
      destruct (IH (S i) w2) as (w3 & rs & Hrest & Hout & Htime)
    end.
    rewrite Hrest. eexists _, _. split; [reflexivity|].
    split.
    + cbn [map]. rewrite Hout. reflexivity.
    + intros HL. specialize (Htime HL). cbn [clock] in *.
      unfold asyncio_sleep in *. destruct (HL i) as (Hl & Hc).
      cbn [length]. lia.
Qed.

Lemma provided_outputs_expected urls raws rs :
  Forall2 (fun u raw => RawArticleData.url raw = u /\
                        RawArticleData.content raw = mock_content u)
    urls raws ->
  Forall2 analysis_of raws rs ->
  map analysis_output rs = map expected_output urls.
Proof.
  intros Hfetch. revert rs.
  induction Hfetch as [|u raw urls' raws' [Hu Hc] _ IH]; intros rs Hproc;
    inversion Hproc as [|? r ? rs' Hr Hrest]; subst; simpl; [reflexivity|].
  f_equal; [|apply IH, Hrest].
  destruct Hr as (Hurl & Hsum & Hcat & Hent).
  rewrite Hc, mock_content_has_marker in Hcat.
  unfold analysis_output, expected_output. congruence.
Qed.

(** The sequential comparison computes what the hybrid pipeline
    computes: run after a [research] that returned a report, on the same
    urls and with a non-negative analysis time, the loop returns results
    that agree with the report's in url, summary, category and entities,
    position by position. *)
Theorem sequential_matches_research L L' Lseq cfg mgr urls w w1 report :
  research L (NewsArticleAgent_init cfg mgr (SummarizeCategorizeStrategy L'))
    urls w = (w1, Return report) ->
  0 <= AgentConfig.mock_analysis_time cfg ->
  exists w2 rs,
    sequential_loop Lseq cfg 0 urls w1 = (w2, Return rs) /\
    map analysis_output rs
    = map analysis_output (NewsAgentReport.results report).
Proof.
  intros H HP. pose proof H as Hrun.
  apply research_provided_Return in H.
  destruct H as (raws & Hfetch & Hproc & _).
  destruct urls as [|u urls].
  - exists w1, []. split; [reflexivity|].
    inversion Hfetch; subst. inversion Hproc; subst. reflexivity.
  - destruct (research_Return_open_pool L L' cfg mgr (u :: urls) w w1 report
                ltac:(discriminate) Hrun) as (_ & _ & _ & _ & _ & HP').
    destruct (sequential_loop_spec Lseq cfg (u :: urls) HP' 0%nat w1)
      as (w2 & rs & Hseq & Hout & _).
    exists w2, rs. split; [exact Hseq|].
    rewrite Hout. symmetry.
    eapply provided_outputs_expected; eassumption.
Qed.

Lemma sequential_matches_research_witness :
  exists w1 report w2 rs,
    research on_time demo_agent demo_urls demo_world = (w1, Return report) /\
    sequential_loop on_time demo_config 0 demo_urls w1 = (w2, Return rs) /\
    map analysis_output rs
    = map analysis_output (NewsAgentReport.results report).
Proof.
  destruct (research on_time demo_agent demo_urls demo_world)
    as [w1 [report|e]] eqn:H; [|vm_compute in H; discriminate H].
  destruct (sequential_matches_research on_time on_time on_time demo_config
              0%nat demo_urls demo_world w1 report H)
    as (w2 & rs & Hseq & Hout); [simpl; lia|].
  exists w1, report, w2, rs. auto.
Defined.

(** With an analysis time that [time.sleep] carries out (not negative,
    [os_sleep_max] at most), the sequential loop returns for every list
    of urls without touching a manager or a pool; when none of its
    sleeps ends early, neither an awaited fetch delay nor a
    [time.sleep], the loop over [N] urls lasts at least [N] times the
    fetch delay (or nothing if that is negative) plus the analysis time:
    nothing in it overlaps. *)
Theorem sequential_loop_duration L cfg urls w :
  0 <= AgentConfig.mock_analysis_time cfg <= os_sleep_max ->
  exists w' rs,
    sequential_loop L cfg 0 urls w = (w', Return rs) /\
    length rs = length urls /\
    managers w' = managers w /\ pools w' = pools w /\
    ((forall i, 0 <= loop_late L i /\ 0 <= cpu_late L i) ->
     Z.of_nat (length urls)
     * (Z.max 0 (AgentConfig.mock_fetch_delay cfg)
        + AgentConfig.mock_analysis_time cfg)
     <= clock w' - clock w).
Proof.
  intros HP%os_sleep_max_fits.
  destruct (sequential_loop_spec L cfg urls HP 0%nat w)
    as (w' & rs & Hseq & Hout & Htime).
  exists w', rs. split; [exact Hseq|].
  split.
  { apply (f_equal (@length _)) in Hout. rewrite !length_map in Hout.
    exact Hout. }
  destruct (sequential_loop_store L cfg urls _ _ _ _ Hseq) as [Hm Hps].
  split; [exact Hm|]. split; [exact Hps|].
  intros HL. specialize (Htime HL). lia.
Qed.

(** Six urls, a fetch of 100 ticks and an analysis of 200 ticks each,
    the third analysis oversleeping by 5 ticks: 1805 ticks. *)
Lemma sequential_loop_duration_witness :
  exists w' rs,
    sequential_loop
      (mkLateness (fun _ => 0) (fun _ => 0)
         (fun i => if Nat.eqb i 2 then 5 else 0))
      demo_config 0 mock_article_urls demo_world
    = (w', Return rs) /\
    6 * (100 + 200) <= clock w' - clock demo_world /\
    clock w' - clock demo_world = 1805.
Proof.
  destruct (sequential_loop_duration
              (mkLateness (fun _ => 0) (fun _ => 0)
                 (fun i => if Nat.eqb i 2 then 5 else 0))
              demo_config mock_article_urls demo_world)
    as (w' & rs & Hseq & _ & _ & _ & Htime).
  - vm_compute. split; discriminate.
  - exists w', rs. split; [exact Hseq|]. split.
    + apply Htime. intros i. cbn [loop_late cpu_late].
      destruct (Nat.eqb i 2); lia.
    + vm_compute in Hseq. injection Hseq as <- _. reflexivity.
Defined.

(** The speedup [main] reports.  On a pool that is open with all its
    [W] workers free, with an analysis time [P] that [time.sleep] carries
    out, hybrid tasks that are never early and late by [a], [b] and [c]
    at most, and a sequential loop whose sleeps are never early:
    whenever the lateness [a + ceil(N / W) * (b + c)] is less than what
    the overlap saves, [(N - 1) * max(0, F) + (N - ceil(N / W)) * P],
    [research] on the [N > 0] urls takes less time than the sequential
    loop run after it. *)
Theorem hybrid_faster a b c L L' Lseq cfg mgr urls w r p :
  late_within a b c L -> late_within a b c L' ->
  (forall i, 0 <= loop_late Lseq i /\ 0 <= cpu_late Lseq i) ->
  urls <> [] ->
  executor mgr w = Return r -> pools w !! r = Some p ->
  ProcessPoolExecutor.shut_down p = false -> pool_wf p ->
  all_idle p (clock w) ->
  0 <= AgentConfig.mock_analysis_time cfg <= os_sleep_max ->
  a + ceil_div (Z.of_nat (length urls)) (ProcessPoolExecutor.max_workers p)
      * (b + c)
  < (Z.of_nat (length urls) - 1) * Z.max 0 (AgentConfig.mock_fetch_delay cfg)
    + (Z.of_nat (length urls)
       - ceil_div (Z.of_nat (length urls))
           (ProcessPoolExecutor.max_workers p))
      * AgentConfig.mock_analysis_time cfg ->
  exists w1 report w2 rs,
    research L
      (NewsArticleAgent_init cfg mgr (SummarizeCategorizeStrategy L'))
      urls w = (w1, Return report) /\
    sequential_loop Lseq cfg 0 urls w1 = (w2, Return rs) /\
    NewsAgentReport.total_time_taken report < clock w2 - clock w1.
Proof.
  intros HL HL' HLs Hne Hex Hp Hs Hwf Hidle HP%os_sleep_max_fits Hgain.
  destruct (research_duration_within a b c L L' cfg mgr urls w r p
              HL HL' Hne Hex Hp Hs Hwf Hidle HP)
    as (w1 & report & Hres & _ & Hhi).
  destruct (sequential_loop_spec Lseq cfg urls HP 0%nat w1)
    as (w2 & rs & Hseq & _ & Hdur).
  specialize (Hdur HLs).
  exists w1, report, w2, rs.
  split; [exact Hres|]. split; [exact Hseq|].
  set (N := Z.of_nat (length urls)) in *.
  set (K := ceil_div N (ProcessPoolExecutor.max_workers p)) in *.
  nia.
Qed.

(** The run of [main]'s defaults scaled down: six urls, two workers, a
    fetch of 100 and an analysis of 200 ticks, lateness of 3, 2 and 1:
    a lateness of 12 against a saving of 1100. *)
Lemma hybrid_faster_witness :
  exists w1 report w2 rs,
    research (mkLateness (fun _ => 3) (fun _ => 2) (fun _ => 1))
      (NewsArticleAgent_init demo_config 0
         (SummarizeCategorizeStrategy
            (mkLateness (fun _ => 3) (fun _ => 2) (fun _ => 1))))
      mock_article_urls demo_world
    = (w1, Return report) /\
    sequential_loop on_time demo_config 0 mock_article_urls w1
    = (w2, Return rs) /\
    NewsAgentReport.total_time_taken report < clock w2 - clock w1.
Proof.
  apply (hybrid_faster 3 2 1
           (mkLateness (fun _ => 3) (fun _ => 2) (fun _ => 1))
           (mkLateness (fun _ => 3) (fun _ => 2) (fun _ => 1))
           on_time demo_config 0%nat
           mock_article_urls demo_world 0%nat
           (ProcessPoolExecutor.mk 2 false [0; 0])).
  - intros i. cbn [loop_late pool_late cpu_late]. lia.
  - intros i. cbn [loop_late pool_late cpu_late]. lia.
  - intros i. cbn [on_time loop_late cpu_late]. lia.
  - discriminate.
  - reflexivity.
  - reflexivity.
  - reflexivity.
  - split; [simpl; lia|reflexivity].
  - unfold all_idle. simpl. repeat (constructor; [lia|]). constructor.
  - vm_compute. split; discriminate.
  - vm_compute. reflexivity.
Defined.

(* ===================================================================== *)
(** ** [main] *)
(* ===================================================================== *)

Lemma main_entry n w :
  0 < n ->
  __aenter__ (length (managers w)) (fst (ExecutorManager_init n w))
  = (entered n w, Return (length (managers w))).
Proof.
  intros Hn.
  rewrite (aenter_positive _ _ (mkExecutorManager n None));
    [| apply list_lookup_middle; reflexivity | exact Hn].
  unfold entered. cbn [ExecutorManager_init fst clock managers pools
                        _max_workers].
  do 2 f_equal.
  replace (length (managers w)) with (length (managers w) + 0)%nat at 1
    by lia.
  rewrite insert_app_r. reflexivity.
Qed.

Lemma entered_executor n w :
  executor (length (managers w)) (entered n w) = Return (length (pools w)) /\
  pools (entered n w) !! length (pools w)
  = Some (ProcessPoolExecutor.mk n false (replicate (Z.to_nat n) (clock w))).
Proof.
  unfold executor, entered. cbn [managers pools].
  rewrite !list_lookup_middle by reflexivity. auto.
Qed.

(** The body of [main] catches whatever [research] and the comparison
    raise, and leaves managers and pool shapes as it found them. *)
Lemma main_body_returns L Lseq cfg mgr w :
  exists w' out,
    main_body L Lseq
      (NewsArticleAgent_init cfg mgr (SummarizeCategorizeStrategy L)) cfg w
    = (w', out, Return tt) /\
    managers w' = managers w /\
    map pool_shape (pools w') = map pool_shape (pools w).
Proof.
  unfold main_body, main_try.
  destruct (research L _ mock_article_urls w) as [w1 [report|e]] eqn:Hres;
    apply research_store in Hres as (Hm1 & Hs1 & _).
  - destruct (sequential_loop Lseq cfg 0 mock_article_urls w1)
      as [w2 [rs|e]] eqn:Hseq;
      apply sequential_loop_store in Hseq as [Hm2 Hp2].
    + destruct (NewsAgentReport.total_time_taken report =? 0);
        eexists _, _; (split; [reflexivity|]); split; congruence.
    + eexists _, _. split; [reflexivity|]. split; congruence.
  - eexists _, _. split; [reflexivity|]. split; congruence.
Qed.

(** With a worker count from 1 to [_MAX_WINDOWS_WORKERS], [main] never
    raises, whatever the delays of the configuration and the lateness of
    the tasks: a failure of [research] or of the comparison is caught and
    printed.  On its way out it has exited the manager: the manager it
    built holds no executor, and the one pool it opened is shut down. *)
Theorem main_closes_pool L Lseq cfg w :
  0 < AgentConfig.max_cpu_workers cfg
    <= ProcessPoolExecutor._MAX_WINDOWS_WORKERS ->
  exists w' out p,
    main L Lseq cfg w = (w', out, Return tt) /\
    managers w'
    = managers w ++ [mkExecutorManager (AgentConfig.max_cpu_workers cfg) None]
    /\
    length (pools w') = S (length (pools w)) /\
    pools w' !! length (pools w) = Some p /\
    ProcessPoolExecutor.shut_down p = true /\
    ProcessPoolExecutor.max_workers p = AgentConfig.max_cpu_workers cfg.
Proof.
  intros [Hn _]. unfold main.
  change (ExecutorManager_init (AgentConfig.max_cpu_workers cfg) w)
    with (fst (ExecutorManager_init (AgentConfig.max_cpu_workers cfg) w),
          length (managers w)).
  cbv beta iota. rewrite (main_entry _ w Hn).
  set (n := AgentConfig.max_cpu_workers cfg) in *.
  destruct (main_body_returns L Lseq cfg (length (managers w)) (entered n w))
    as (w3 & out & Hbody & Hm & Hshape).
  rewrite Hbody.
  assert (Hlen : length (pools w3) = S (length (pools w))).
  { apply (f_equal (@length _)) in Hshape. rewrite !length_map in Hshape.
    rewrite Hshape. unfold entered. cbn [pools]. rewrite length_app.
    simpl. lia. }
  destruct (lookup_lt_is_Some_2 (pools w3) (length (pools w)) ltac:(lia))
    as [p3 Hp3].
  assert (Hp3shape : pool_shape p3
                     = (n, false, length (replicate (Z.to_nat n) (clock w)))).
  { apply (f_equal (fun l => l !! length (pools w))) in Hshape.
    change (map pool_shape) with (fmap (M:=list) pool_shape) in Hshape.
    rewrite !list_lookup_fmap, Hp3 in Hshape.
    destruct (entered_executor n w) as [_ Hfresh]. rewrite Hfresh in Hshape.
    simpl in Hshape. injection Hshape as Hw Hsd Hl.
    unfold pool_shape. congruence. }
  rewrite (aexit_open w3 (length (managers w))
             (mkExecutorManager n (Some (length (pools w))))
             (length (pools w)) p3);
    [| rewrite Hm; unfold entered; cbn [managers];
       apply list_lookup_middle; reflexivity
     | reflexivity
     | exact Hp3].
  eexists _, out, (ProcessPoolExecutor.shutdown p3).
  split; [reflexivity|]. cbn [managers pools _max_workers].
  split.
  { rewrite Hm. unfold entered. cbn [managers].
    replace (length (managers w)) with (length (managers w) + 0)%nat at 1
      by lia.
    rewrite insert_app_r. reflexivity. }
  split; [rewrite length_insert; exact Hlen|].
  split; [apply list_lookup_insert_eq; lia|].
  split; [reflexivity|].
  unfold pool_shape in Hp3shape. simpl. congruence.
Qed.

(** With a worker count that is not positive [main] raises: the
    [ValueError] of the pool constructor comes out of the [async with]
    line, which is outside the [try], and nothing is printed. *)
Theorem main_nonpositive_workers L Lseq cfg w :
  AgentConfig.max_cpu_workers cfg <= 0 ->
  main L Lseq cfg w
  = (fst (ExecutorManager_init (AgentConfig.max_cpu_workers cfg) w), [],
     Raise (ValueError "max_workers must be greater than 0")).
Proof.
  intros Hn. unfold main, ExecutorManager_init. cbv beta iota.
  unfold __aenter__. cbn [managers clock pools fst].
  rewrite list_lookup_middle by reflexivity.
  unfold ProcessPoolExecutor.new. cbn [_max_workers].
  destruct (Z.leb_spec (AgentConfig.max_cpu_workers cfg) 0); [reflexivity|lia].
Qed.

Lemma main_closes_pool_witness :
  exists w' out,
    main on_time on_time negative_config empty_world = (w', out, Return tt) /\
    managers w' = [mkExecutorManager 2 None].
Proof.
  destruct (main_closes_pool on_time on_time negative_config empty_world)
    as (w' & out & p & Hmain & Hm & _);
    [vm_compute; split; [reflexivity | discriminate]|].
  exists w', out. split; [exact Hmain | exact Hm].
Defined.

Lemma main_nonpositive_workers_witness :
  snd (main on_time on_time (AgentConfig.mk 0 100 200 5000) empty_world)
  = Raise (ValueError "max_workers must be greater than 0").
Proof.
  rewrite (main_nonpositive_workers on_time on_time
             (AgentConfig.mk 0 100 200 5000) empty_world); [reflexivity|].
  simpl. lia.
Defined.

Lemma main_printed L Lseq cfg w :
  0 < AgentConfig.max_cpu_workers cfg ->
  snd (fst (main L Lseq cfg w))
  = snd (fst (main_body L Lseq
                (NewsArticleAgent_init cfg (length (managers w))
                   (SummarizeCategorizeStrategy L))
                cfg (entered (AgentConfig.max_cpu_workers cfg) w))).
Proof.
  intros Hn. unfold main.
  change (ExecutorManager_init (AgentConfig.max_cpu_workers cfg) w)
    with (fst (ExecutorManager_init (AgentConfig.max_cpu_workers cfg) w),
          length (managers w)).
  cbv beta iota. rewrite (main_entry _ w Hn).
  destruct (main_body _ _ _ _ _) as [[w3 out] [u|e]]; [|reflexivity].
  destruct (__aexit__ _ w3) as [w4 [u'|e]]; reflexivity.
Qed.

(** With a worker count from 1 to [_MAX_WINDOWS_WORKERS] and an analysis
    time that [time.sleep] refuses, [main] prints the one-line diagnostic
    of the exception [time.sleep] raised in the worker and nothing else,
    no report and no comparison: a [ValueError] for a negative time down
    to [- sleep_max], an [OverflowError] for a time beyond [sleep_max] on
    either side. *)
Theorem main_refused_analysis_time L Lseq cfg w :
  0 < AgentConfig.max_cpu_workers cfg
    <= ProcessPoolExecutor._MAX_WINDOWS_WORKERS ->
  (- sleep_max <= AgentConfig.mock_analysis_time cfg < 0 ->
   exists e,
     snd (fst (main L Lseq cfg w)) = [ErrorOccurred e] /\
     exc_type e = "ValueError"%string /\
     exc_msg e = "sleep length must be non-negative"%string) /\
  (AgentConfig.mock_analysis_time cfg < - sleep_max \/
   sleep_max < AgentConfig.mock_analysis_time cfg ->
   exists e,
     snd (fst (main L Lseq cfg w)) = [ErrorOccurred e] /\
     exc_type e = "OverflowError"%string).
Proof.
  intros [Hn _]. rewrite (main_printed L Lseq cfg w Hn).
  set (n := AgentConfig.max_cpu_workers cfg) in *.
  destruct (entered_executor n w) as [Hex Hp].
  destruct (research_on_open_pool L L cfg (length (managers w))
              mock_article_urls (entered n w) _ _ Hex Hp eq_refl)
    as (w1 & p' & ds & _ & _ & Hlen & _ & Hbad & Hres).
  assert (Hds : ds <> []).
  { intros Hnil. rewrite Hnil in Hlen. discriminate Hlen. }
  split; intros HP.
  - destruct (all_raise_first_failure ds _ Hds
                (Hbad _ (fun t late => time_sleep_negative _ t late HP)))
      as [t Ht].
    rewrite Ht in Hres.
    unfold main_body, main_try. rewrite Hres.
    eexists. split; [reflexivity|]. split; reflexivity.
  - destruct (all_raise_first_failure ds _ Hds
                (Hbad _ (fun t late => time_sleep_overflow _ t late HP)))
      as [t Ht].
    rewrite Ht in Hres.
    unfold main_body, main_try. rewrite Hres.
    eexists. split; reflexivity.
Qed.

Lemma main_refused_analysis_time_witness :
  exists e,
    snd (fst (main on_time on_time negative_config empty_world))
    = [ErrorOccurred e] /\
    exc_type e = "ValueError"%string /\
    exc_msg e = "sleep length must be non-negative"%string.
Proof.
  destruct (main_refused_analysis_time on_time on_time negative_config
              empty_world) as [Hneg _].
  - vm_compute. split; [reflexivity | discriminate].
  - apply Hneg. vm_compute. split; [discriminate | reflexivity].
Defined.

(** With a worker count from 1 to [_MAX_WINDOWS_WORKERS], a positive
    fetch delay, an analysis time that [time.sleep] carries out (not
    negative, [os_sleep_max] at most) and no fetch waking early, [main] prints the report, then the sequential duration,
    then the speedup, and no diagnostic; the report counts the six urls
    and lists for each what the url decides, and its duration, the
    divisor of the speedup, is positive. *)
Theorem main_prints_report L Lseq cfg w :
  0 < AgentConfig.max_cpu_workers cfg
    <= ProcessPoolExecutor._MAX_WINDOWS_WORKERS ->
  0 <= AgentConfig.mock_analysis_time cfg <= os_sleep_max ->
  0 < AgentConfig.mock_fetch_delay cfg ->
  (forall i, 0 <= loop_late L i) ->
  exists report s,
    snd (fst (main L Lseq cfg w))
    = [FinalReport report; SequentialTime s;
       Speedup s (NewsAgentReport.total_time_taken report)] /\
    map analysis_output (NewsAgentReport.results report)
    = map expected_output mock_article_urls /\
    NewsAgentReport.total_articles_processed report = 6 /\
    0 < NewsAgentReport.total_time_taken report.
Proof.
  intros [Hn _] HP%os_sleep_max_fits HF HL.
  rewrite (main_printed L Lseq cfg w Hn).
  set (n := AgentConfig.max_cpu_workers cfg) in *.
  destruct (entered_executor n w) as [Hex Hp].
  destruct (research_process_phase L L cfg (length (managers w))
              mock_article_urls (entered n w) _ _ Hex Hp eq_refl)
    as (p' & ds & _ & _ & Hok & Hres).
  rewrite (Hok HP) in Hres.
  match type of Hres with _ = (?w1', Return ?rep) =>
    set (w1 := w1') in *; set (report := rep) in * end.
  destruct (sequential_loop_spec Lseq cfg mock_article_urls HP 0%nat w1)
    as (w2 & rs & Hseq & _ & _).
  assert (Hpos : 0 < NewsAgentReport.total_time_taken report).
  { subst report. cbn [NewsAgentReport.total_time_taken].
    pose proof (fetch_end_not_early L (AgentConfig.mock_fetch_delay cfg)
                  (clock (entered n w)) mock_article_urls HL
                  ltac:(discriminate)) as Hfe.
    destruct (latest_ge
                (fetch_end L (AgentConfig.mock_fetch_delay cfg)
                   (clock (entered n w)) mock_article_urls) ds) as [Hge _].
    lia. }
  exists report, (clock w2 - clock w1).
  split.
  { unfold main_body, main_try. rewrite Hres, Hseq.
    destruct (Z.eqb_spec (NewsAgentReport.total_time_taken report) 0);
      [lia|reflexivity]. }
  split.
  { pose proof Hres as Hres'. apply research_provided_Return in Hres'.
    destruct Hres' as (raws & Hfetch & Hproc & _).
    eapply provided_outputs_expected; eassumption. }
  split; [reflexivity | exact Hpos].
Qed.

Lemma main_prints_report_witness :
  exists report s,
    snd (fst (main on_time on_time demo_config empty_world))
    = [FinalReport report; SequentialTime s;
       Speedup s (NewsAgentReport.total_time_taken report)] /\
    NewsAgentReport.total_articles_processed report = 6.
Proof.
  destruct (main_prints_report on_time on_time demo_config empty_world)
    as (report & s & Hout & _ & Hcount & _).
  - vm_compute. split; [reflexivity | discriminate].
  - vm_compute. split; discriminate.
  - simpl. lia.
  - intros i. simpl. lia.
  - exists report, s. split; [exact Hout | exact Hcount].
Defined.

(* ===================================================================== *)
(** ** More on the mock collaborators *)
(* ===================================================================== *)

Lemma prefix_app s t : String.prefix s (s +:+ t) = true.
Proof.
  induction s as [|c s IH]; simpl; [destruct t; reflexivity|].
  destruct (ascii_dec c c); [exact IH | congruence].
Qed.

Lemma contains_prefix needle hay :
  String.prefix needle hay = true -> contains needle hay = true.
Proof. intros H. destruct hay; cbn [contains]; rewrite H; reflexivity. Qed.

Lemma contains_app_l needle s : contains needle (needle +:+ s) = true.
Proof. apply contains_prefix, prefix_app. Qed.

(** The mock fetch never fails and never touches a pool; the article it
    returns carries the url it was asked for, a content that quotes that
    url and contains the marker, and as [fetch_time] the delay it slept,
    which is zero, not negative, for a negative [mock_fetch_delay]. *)
Theorem fetch_returns_article url delay late now ps :
  exists raw,
    async_mock_fetch_article_content url delay late now ps
    = (ps, mkDone (now + Z.max 0 delay + late) (Return raw)) /\
    RawArticleData.url raw = url /\
    contains url (RawArticleData.content raw) = true /\
    contains "AI engineering" (RawArticleData.content raw) = true /\
    RawArticleData.fetch_time raw = Z.max 0 delay + late.
Proof.
  eexists. split; [reflexivity|]. cbn [RawArticleData.url
    RawArticleData.content RawArticleData.fetch_time].
  split; [reflexivity|]. split.
  { unfold mock_content. apply contains_app_r, contains_app_l. }
  split; [apply mock_content_has_marker|].
  unfold asyncio_sleep. lia.
Qed.

Lemma run_all_Forall_now {A X} (Q : Done A -> Prop) now (xs : list X) :
  forall (mk : nat -> X -> Coroutine A),
    (forall i x ps, Q (snd (mk i x now ps))) ->
    forall ps, Forall Q (snd (run_all (imap mk xs) now ps)).
Proof.
  induction xs as [|x xs IH]; intros mk Hmk ps; simpl; [constructor|].
  pose proof (Hmk 0%nat x ps) as Hx.
  destruct (mk 0%nat x now ps) as [ps1 d]. simpl in Hx.
  specialize (IH (mk ∘ S) (fun i => Hmk (S i)) ps1).
  destruct (run_all (imap (mk ∘ S) xs) now ps1) as [ps2 ds]. simpl in *.
  constructor; assumption.
Qed.

Lemma Forall_values {A} (P : A -> Prop) (ds : list (Done A)) :
  Forall (fun d => forall a, result d = Return a -> P a) ds ->
  Forall P (values ds).
Proof.
  induction 1 as [|d ds Hd _ IH]; simpl; [constructor|].
  destruct (result d) as [a|e]; [constructor; auto | exact IH].
Qed.

(** A result of the provided strategy measures at least the analysis
    time, and the call that produced it ends no sooner than that much
    after it was made, when nothing is early. *)
Lemma process_article_timing L' cfg i raw ex now ps r :
  punctual L' ->
  result (snd (process_article (SummarizeCategorizeStrategy L' cfg)
                 i raw ex now ps)) = Return r ->
  AgentConfig.mock_analysis_time cfg
  <= ArticleAnalysisResult.analysis_time r /\
  now + ArticleAnalysisResult.analysis_time r
  <= finished_at (snd (process_article (SummarizeCategorizeStrategy L' cfg)
                         i raw ex now ps)).
Proof.
  intros HL. cbn [process_article SummarizeCategorizeStrategy]. intros H.
  destruct (run_cpu_task_in_executor _ _ _ now ps) as [ps' d] eqn:Hrun.
  cbn [snd] in *.
  destruct (run_cpu_task_Return _ _ _ _ _ _ _ _ Hrun H)
    as (p & _ & _ & Hd & _).
  pose proof H as Hm. rewrite Hd in Hm.
  apply cpu_mock_Return in Hm as (_ & _ & Htime & Hfin).
  rewrite <- Hd in Hfin. destruct (HL i) as (_ & Hpl & Hcl). lia.
Qed.

(** In a report, when nothing is early, every result's [analysis_time]
    is at least the configured analysis time and at most the report's
    [total_time_taken]. *)
Theorem analysis_time_bounds L L' cfg mgr urls w w' report :
  punctual L' ->
  research L (NewsArticleAgent_init cfg mgr (SummarizeCategorizeStrategy L'))
    urls w = (w', Return report) ->
  Forall (fun r =>
            AgentConfig.mock_analysis_time cfg
            <= ArticleAnalysisResult.analysis_time r /\
            ArticleAnalysisResult.analysis_time r
            <= NewsAgentReport.total_time_taken report)
    (NewsAgentReport.results report).
Proof.
  intros HL H. unfold research in H.
  apply research_with_Return in H
    as (w1 & raws & tasks & results & Hg1 & Hb & Hg2 & ->).
  cbn [NewsAgentReport.results NewsAgentReport.total_time_taken].
  apply gather_Return in Hg1 as (_ & _ & Hclock1 & _).
  assert (Hge1 : clock w <= clock w1)
    by (rewrite Hclock1; apply latest_ge).
  rewrite build_process_tasks_eq in Hb.
  destruct raws as [|raw raws].
  { injection Hb as <-. apply gather_Return in Hg2 as (_ & -> & _).
    constructor. }
  destruct (executor _ w1) as [ex|e]; cbn [bind] in Hb; [|discriminate].
  injection Hb as <-.
  apply gather_Return in Hg2 as (_ & -> & Hclock2 & _).
  set (ds := snd (run_all _ (clock w1) (pools w1))) in *.
  assert (Hfinish : Forall (fun d => finished_at d <= clock w') ds).
  { apply Forall_forall. intros d Hd. rewrite Hclock2.
    apply latest_ge, Hd. }
  assert (Htask : Forall (fun d => forall r, result d = Return r ->
                            AgentConfig.mock_analysis_time cfg
                            <= ArticleAnalysisResult.analysis_time r /\
                            clock w1 + ArticleAnalysisResult.analysis_time r
                            <= finished_at d) ds).
  { subst ds.
    apply (run_all_Forall_now _ (clock w1) (raw :: raws)
             (fun j raw0 =>
                process_article
                  (strategy (NewsArticleAgent_init cfg mgr
                               (SummarizeCategorizeStrategy L')))
                  (0 + j) raw0 ex)).
    intros i x ps r Hr.
    apply (process_article_timing L' cfg (0 + i) x ex (clock w1) ps r HL Hr). }
  apply Forall_values. apply Forall_forall. intros d Hd r Hr.
  rewrite Forall_forall in Hfinish, Htask.
  specialize (Hfinish d Hd). destruct (Htask d Hd r Hr) as [Hlo Hhi].
  lia.
Qed.

Lemma analysis_time_bounds_witness :
  exists w' report,
    research on_time demo_agent demo_urls demo_world = (w', Return report) /\
    Forall (fun r => 200 <= ArticleAnalysisResult.analysis_time r /\
                     ArticleAnalysisResult.analysis_time r <= 500)
      (NewsAgentReport.results report).
Proof.
  destruct (research on_time demo_agent demo_urls demo_world)
    as [w' [report|e]] eqn:H; [|vm_compute in H; discriminate H].
  exists w', report. split; [reflexivity|].
  pose proof (analysis_time_bounds on_time on_time demo_config 0%nat
                demo_urls demo_world w' report
                ltac:(intros i; simpl; lia) H) as Hb.
  vm_compute in H. injection H as _ <-. exact Hb.
Defined.
